(** * nanomock: the NanoLocalManager orchestration controller

    A shallow embedding of [nanomock/nanomock_manager.py]: the command
    dispatcher, the self-healing process executor, the readiness poller and
    the status report, followed by the properties of the specification that
    were checked against it.

    Conventions of the embedding
    - Python [str] is [string] (characters are bytes; the texts handled here
      are ASCII: node names, docker diagnostics, decimal numbers).  The
      limit that recent Python versions put on the number of digits read by
      [int()], which [sys.set_int_max_str_digits] changes, is not part of
      the model.
    - Python [int] is [Z]; Python [float] is IEEE-754 binary64, taken from
      the Standard Library's [SpecFloat] with [prec = 53], [emax = 1024].
    - An exception is a value of [exn]; a computation that can raise returns
      [res A]; a computation with effects is a function of the [Trace] of
      everything done so far.  Loops and recursion that Python does not
      bound take a [fuel] argument and answer [Diverge] when it runs out.
    - Logging calls have no influence on results and are left out. *)

From Stdlib Require Import ZArith List String Ascii Bool Lia.
From Stdlib Require Import Floats.SpecFloat.
Import ListNotations.

Local Open Scope string_scope.
Local Open Scope Z_scope.

(* ===================================================================== *)
(** ** Exceptions and results *)

(** [subprocess.CalledProcessError]: the command, its exit status and the
    captured output. *)
Inductive Cmd :=
| CmdStr (s : string)            (* a shell command line *)
| CmdList (argv : list string).  (* an argument vector *)

Record ProcessError := {
  e_cmd : Cmd;
  e_returncode : Z;
  e_stdout : string;
  e_stderr : string
}.

Record CompletedProcess := {
  cp_args : Cmd;
  cp_stdout : string;
  cp_stderr : string
}.

Inductive exn :=
| CalledProcessError (e : ProcessError)
| ValueError (msg : string)
| AttributeError (msg : string)
| ZeroDivisionError (msg : string)
| OverflowError (msg : string)
| ExternalError (msg : string).   (* raised by a collaborator outside this file *)

Inductive res (A : Type) :=
| Ret (a : A)
| Raise (e : exn)
| Diverge.

Arguments Ret {A} a.
Arguments Raise {A} e.
Arguments Diverge {A}.

Module ResMonad.
Definition bind {A B} (c : res A) (k : A -> res B) : res B :=
  match c with
  | Ret a => k a
  | Raise e => Raise e
  | Diverge => Diverge
  end.

(** [mapM f l]: left to right, stopping at the first exception. *)
Fixpoint mapM {A B} (f : A -> res B) (l : list A) : res (list B) :=
  match l with
  | [] => Ret []
  | x :: xs =>
      bind (f x) (fun y => bind (mapM f xs) (fun ys => Ret (y :: ys)))
  end.
End ResMonad.

Notation "'let!' x ':=' c 'in' k" := (ResMonad.bind c (fun x => k))
  (at level 10, x pattern, c at level 100, k at level 200).

(* ===================================================================== *)
(** ** Strings, the way Python handles them *)

Module PyStr.

Definition dquote : string := String (ascii_of_nat 34) EmptyString.
Definition squote : string := String (ascii_of_nat 39) EmptyString.
Definition newline : string := String (ascii_of_nat 10) EmptyString.

(** [needle in hay] *)
Fixpoint contains (needle hay : string) : bool :=
  if prefix needle hay then true
  else match hay with
       | EmptyString => false
       | String _ rest => contains needle rest
       end.

(** [sep.join(l)] *)
Definition join (sep : string) (l : list string) : string := concat sep l.

(** [s.split(" ")[0]]: the text before the first space. *)
Fixpoint before_space (s : string) : string :=
  match s with
  | EmptyString => EmptyString
  | String c rest =>
      if Ascii.eqb c " "%char then EmptyString else String c (before_space rest)
  end.

Definition zlength (s : string) : Z := Z.of_nat (String.length s).

Fixpoint spaces (n : nat) : string :=
  match n with
  | O => EmptyString
  | S k => String " "%char (spaces k)
  end.

(** ['{:<w}'.format(s)] and ['{:>w}'.format(s)]: pad, never cut. *)
Definition ljust (w : nat) (s : string) : string :=
  s ++ spaces (w - String.length s).
Definition rjust (w : nat) (s : string) : string :=
  spaces (w - String.length s) ++ s.

Definition digit_char (d : Z) : ascii := ascii_of_nat (48 + Z.to_nat d).

(** Decimal digits of a natural number, most significant first.  The fuel
    is the number of binary digits, which is at least the number of
    decimal ones. *)
Fixpoint digits_fuel (fuel : nat) (n : Z) (acc : string) : string :=
  match fuel with
  | O => acc
  | S f =>
      let acc' := String (digit_char (n mod 10)) acc in
      if n / 10 =? 0 then acc' else digits_fuel f (n / 10) acc'
  end.

Definition str_nat (n : Z) : string :=
  digits_fuel (S (Z.to_nat (Z.log2 n))) n EmptyString.

(** [str(n)] for an int. *)
Definition str_int (n : Z) : string :=
  if n <? 0 then "-" ++ str_nat (- n) else str_nat n.

Definition is_digit (c : ascii) : bool :=
  let n := nat_of_ascii c in (48 <=? n)%nat && (n <=? 57)%nat.

(** White space for [str.strip()]. *)
Definition is_space (c : ascii) : bool :=
  let n := nat_of_ascii c in
  ((9 <=? n)%nat && (n <=? 13)%nat) || ((28 <=? n)%nat && (n <=? 32)%nat).

(** White space for [int()], which on ASCII text skips what C's [isspace]
    accepts: the separators 28 to 31 are not part of it. *)
Definition is_int_space (c : ascii) : bool :=
  let n := nat_of_ascii c in
  ((9 <=? n)%nat && (n <=? 13)%nat) || (n =? 32)%nat.

(** [\w] of the [re] module on ASCII text. *)
Definition is_word (c : ascii) : bool :=
  let n := nat_of_ascii c in
  is_digit c
  || ((65 <=? n)%nat && (n <=? 90)%nat)
  || ((97 <=? n)%nat && (n <=? 122)%nat)
  || (n =? 95)%nat.

Fixpoint lstrip (s : string) : string :=
  match s with
  | String c rest => if is_space c then lstrip rest else s
  | EmptyString => s
  end.

Fixpoint skip_int_space (s : string) : string :=
  match s with
  | String c rest => if is_int_space c then skip_int_space rest else s
  | EmptyString => s
  end.

Fixpoint rev_string (s acc : string) : string :=
  match s with
  | EmptyString => acc
  | String c rest => rev_string rest (String c acc)
  end.

Definition strip (s : string) : string :=
  rev_string (lstrip (rev_string (lstrip s) EmptyString)) EmptyString.

(** Digits with single underscores between them, as [int()] accepts.
    [after_digit] tells whether the previous character was a digit. *)
Fixpoint parse_digits (s : string) (after_digit : bool) (acc : Z) : option Z :=
  match s with
  | EmptyString => if after_digit then Some acc else None
  | String c rest =>
      if is_digit c then
        parse_digits rest true (10 * acc + Z.of_nat (nat_of_ascii c - 48))
      else if Ascii.eqb c "_"%char then
        if after_digit then parse_digits rest false acc else None
      else None
  end.

(** [int(s)] for a string, base 10; [None] stands for [ValueError]. *)
Definition int_of_str (s : string) : option Z :=
  match rev_string (skip_int_space (rev_string (skip_int_space s) EmptyString))
                   EmptyString with
  | String "-" rest => option_map Z.opp (parse_digits rest false 0)
  | String "+" rest => parse_digits rest false 0
  | body => parse_digits body false 0
  end.

(** [repr(s)]: single quotes unless the text has a single quote and no
    double quote; backslash and the chosen quote escaped, tab, newline and
    carriage return by their letters, and every other character that is not
    printable (below 32, 127 to 160, 173) by its two hexadecimal digits. *)
Definition hex_digit (d : nat) : ascii :=
  ascii_of_nat (if (d <? 10)%nat then 48 + d else 87 + d).

Definition is_printable (n : nat) : bool :=
  (32 <=? n)%nat && negb ((127 <=? n)%nat && (n <=? 160)%nat) && negb (n =? 173)%nat.

Fixpoint has_char (c : ascii) (s : string) : bool :=
  match s with
  | EmptyString => false
  | String d rest => Ascii.eqb c d || has_char c rest
  end.

Fixpoint escape (q : ascii) (s : string) : string :=
  match s with
  | EmptyString => EmptyString
  | String c rest =>
      let n := nat_of_ascii c in
      (if Ascii.eqb c q || (n =? 92)%nat then String (ascii_of_nat 92) (String c EmptyString)
       else if (n =? 10)%nat then String (ascii_of_nat 92) "n"
       else if (n =? 13)%nat then String (ascii_of_nat 92) "r"
       else if (n =? 9)%nat then String (ascii_of_nat 92) "t"
       else if is_printable n then String c EmptyString
       else String (ascii_of_nat 92)
              (String "x" (String (hex_digit (n / 16))
                             (String (hex_digit (n mod 16)) EmptyString))))
      ++ escape q rest
  end.

Definition repr (s : string) : string :=
  let q := if has_char (ascii_of_nat 39) s && negb (has_char (ascii_of_nat 34) s)
           then ascii_of_nat 34 else ascii_of_nat 39 in
  String q (escape q s ++ String q EmptyString).

(** The first [n] characters of a text, as the precision of a format
    directive keeps them. *)
Fixpoint cut (n : nat) (s : string) : string :=
  match n, s with
  | S k, String c rest => String c (cut k rest)
  | _, _ => EmptyString
  end.

(** [str(l)] for a list of strings. *)
Definition str_list (l : list string) : string :=
  "[" ++ join ", " (map repr l) ++ "]".

End PyStr.

(* ===================================================================== *)
(** ** Floats: binary64 *)

Module PyFloat.

Definition prec : Z := 53.
Definition emax : Z := 1024.
Definition float := spec_float.

(** An integer as an exact (not yet rounded) binary number. *)
Definition exact_of_int (n : Z) : float :=
  match n with
  | Z0 => S754_zero false
  | Zpos p => S754_finite false p 0
  | Zneg p => S754_finite true p 0
  end.

(** [float(n)]: round to nearest even; too large raises. *)
Definition of_int (n : Z) : res float :=
  match binary_normalize prec emax n 0 false with
  | S754_infinity _ => Raise (OverflowError "int too large to convert to float")
  | x => Ret x
  end.

(** [a / b] on two ints: the correctly rounded quotient. *)
Definition int_true_div (a b : Z) : res float :=
  if b =? 0 then Raise (ZeroDivisionError "division by zero")
  else match SFdiv prec emax (exact_of_int a) (exact_of_int b) with
       | S754_infinity _ =>
           Raise (OverflowError "integer division result too large for a float")
       | x => Ret x
       end.

(** [x * n] with a float and an int. *)
Definition mul_int (x : float) (n : Z) : res float :=
  let! y := of_int n in Ret (SFmul prec emax x y).

(** [math.floor(x)] *)
Definition floor (x : float) : res Z :=
  match x with
  | S754_zero _ => Ret 0
  | S754_finite s m e =>
      let v := if s then Zneg m else Zpos m in
      Ret (if 0 <=? e then v * 2 ^ e else v / 2 ^ (- e))
  | S754_infinity _ => Raise (OverflowError "cannot convert float infinity to integer")
  | S754_nan => Raise (ValueError "cannot convert float NaN to integer")
  end.

(** The magnitude of [x] times 100, rounded to the nearest integer, ties
    to even: the digits that ['.2f'] prints. *)
Definition hundredths (x : float) : Z :=
  match x with
  | S754_finite _ m e =>
      if 0 <=? e then Zpos m * 2 ^ e * 100
      else
        let den := 2 ^ (- e) in
        let q := (Zpos m * 100) / den in
        let r := (Zpos m * 100) mod den in
        match 2 * r ?= den with
        | Lt => q
        | Gt => q + 1
        | Eq => if Z.even q then q else q + 1
        end
  | _ => 0
  end.

Definition sign_bit (x : float) : bool :=
  match x with
  | S754_zero s | S754_infinity s | S754_finite s _ _ => s
  | S754_nan => false
  end.

Definition two_digits (n : Z) : string :=
  String (PyStr.digit_char (n / 10)) (String (PyStr.digit_char (n mod 10)) EmptyString).

(** ['{:.2f}'.format(x)] *)
Definition format_2f (x : float) : string :=
  match x with
  | S754_infinity s => if s then "-inf" else "inf"
  | S754_nan => "nan"
  | _ =>
      let h := hundredths x in
      (if sign_bit x then "-" else "")
        ++ PyStr.str_nat (h / 100) ++ "." ++ two_digits (h mod 100)
  end.

(** [float(n)] for an int in the range of the floats. *)
Definition from_int (n : Z) : float := binary_normalize prec emax n 0 false.

(** [x - y] on two floats. *)
Definition sub (x y : float) : float := SFsub prec emax x y.

(** [x > n] with a float and an int: Python compares the two numbers as
    they are, without rounding the int. *)
Definition gt_int (x : float) (n : Z) : bool :=
  match x with
  | S754_nan => false
  | S754_infinity s => negb s
  | S754_zero _ => 0 >? n
  | S754_finite s m e =>
      let v := if s then Zneg m else Zpos m in
      if 0 <=? e then v * 2 ^ e >? n else v >? n * 2 ^ (- e)
  end.

End PyFloat.

(* ===================================================================== *)
(** ** Status report (pure part of the Status Aggregator) *)

(** The version answer of a node: [{"node_vendor": .., "build_info": ..}]. *)
Record VersionInfo := {
  node_vendor : string;
  build_info : string
}.

(** One entry of [nodes_block_count].  [count] has been through [int()] in
    [_get_nodes_block_counts]; [cemented] is still the text of the RPC
    answer. *)
Record NodeMetrics := {
  node_name : string;
  count : Z;
  cemented : string;
  version : VersionInfo
}.

(** [int(s)], raising as Python does; the message holds the first 200
    characters of [repr(s)]. *)
Definition py_int (s : string) : res Z :=
  match PyStr.int_of_str s with
  | Some n => Ret n
  | None => Raise (ValueError ("invalid literal for int() with base 10: "
                               ++ PyStr.cut 200 (PyStr.repr s)))
  end.

(** [max(int(bc["count"]) for bc in nodes_block_count)]; the list is not
    empty where this is used, and the value for the empty list is never
    looked at. *)
Definition max_count_of (nodes_block_count : list NodeMetrics) : Z :=
  match nodes_block_count with
  | [] => 0
  | bc :: rest => fold_left Z.max (map count rest) (count bc)
  end.

Fixpoint get_node_data (nodes_block_count : list NodeMetrics) (name : string)
  : option NodeMetrics :=
  match nodes_block_count with
  | [] => None
  | bc :: rest =>
      if String.eqb (node_name bc) name then Some bc else get_node_data rest name
  end.

(** [floor(int(bc["cemented"]) / max_count * 10000) / 100] *)
Definition synced_percentage (cemented_text : string) (max_count : Z)
  : res PyFloat.float :=
  let! c := py_int cemented_text in
  let! ratio := PyFloat.int_true_div c max_count in
  let! scaled := PyFloat.mul_int ratio 10000 in
  let! k := PyFloat.floor scaled in
  PyFloat.int_true_div k 100.

Definition format_report_line (max_count : Z) (bc : NodeMetrics) : res string :=
  let node_version :=
    node_vendor (version bc) ++ " " ++ PyStr.before_space (build_info (version bc)) in
  let! pct := synced_percentage (cemented bc) max_count in
  Ret (PyStr.ljust 16 (node_name bc) ++ " "
       ++ PyStr.ljust 20 node_version ++ " "
       ++ PyStr.rjust 6 (PyFloat.format_2f pct) ++ "% synced | "
       ++ cemented bc ++ "/" ++ PyStr.str_int (count bc) ++ " blocks cemented").

(** The line of one declared node. *)
Definition report_line (nodes_block_count : list NodeMetrics) (max_count : Z)
  (name : string) : res string :=
  match get_node_data nodes_block_count name with
  | Some node_data => format_report_line max_count node_data
  | None => Ret (name ++ " [down]")
  end.

Definition _generate_network_status_report (nodes : list string)
  (nodes_block_count : list NodeMetrics) : res string :=
  match nodes_block_count with
  | [] => Ret ""
  | _ =>
      let max_count := max_count_of nodes_block_count in
      let! report := ResMonad.mapM (report_line nodes_block_count max_count) nodes in
      Ret (PyStr.newline ++ PyStr.join PyStr.newline report)
  end.

(** [online_containers_status] *)
Definition online_containers_status (online_containers : list string)
  (total_nodes : Z) : string :=
  let online_count := Z.of_nat (List.length online_containers) in
  if online_count =? total_nodes
  then "All " ++ PyStr.str_int online_count ++ " containers online"
  else PyStr.str_int online_count ++ "/" ++ PyStr.str_int total_nodes
         ++ " containers online".

(* ===================================================================== *)
(** ** Effects: what the controller does to the outside world *)

(** The remote calls of the RPC client. *)
Inductive RpcCall :=
| BlockCount
| Version
| PostWithAuth (payload : option string).

(** The collaborators that lie outside the controller: configuration
    templating, ledger bootstrap, file removal. *)
Inductive Collab :=
| CreateDockerComposeFile
| InitNodes
| ShutilRmtree (path : string).

Inductive Event :=
| EvRun (cmd : Cmd) (shell : bool) (cwd : option string)  (* subprocess.run *)
| EvProbe (node : string)            (* one _is_rpc_available call handed to
                                        the pool *)
| EvClock                            (* time.time() *)
| EvSleep (seconds : Z)              (* time.sleep *)
| EvRpc (node : string) (call : RpcCall)
| EvCollab (c : Collab).

Definition Trace := list Event.

(** What an action hands back to its caller. *)
Inductive PyValue :=
| PyNone
| PyStr (s : string).

Module Eff.
Definition M (A : Type) : Type := Trace -> res A * Trace.

Definition ret {A} (a : A) : M A := fun t => (Ret a, t).
Definition raise {A} (e : exn) : M A := fun t => (Raise e, t).
Definition diverge {A} : M A := fun t => (Diverge, t).
Definition bind {A B} (c : M A) (k : A -> M B) : M B :=
  fun t => match c t with
           | (Ret a, t') => k a t'
           | (Raise e, t') => (Raise e, t')
           | (Diverge, t') => (Diverge, t')
           end.
(** A pure computation that may raise. *)
Definition lift {A} (r : res A) : M A := fun t => (r, t).
(** Record an event and answer with what the world says to it. *)
Definition perform {A} (answer : Trace -> A) (ev : Event) : M A :=
  fun t => (Ret (answer t), (t ++ [ev])%list).

(** [for x in l: body x], left to right, collecting the results. *)
Fixpoint for_each {A B} (body : A -> M B) (l : list A) : M (list B) :=
  match l with
  | [] => ret []
  | x :: xs =>
      bind (body x) (fun y => bind (for_each body xs) (fun ys => ret (y :: ys)))
  end.
End Eff.

Notation "x <- c ;; k" := (Eff.bind c (fun x => k))
  (at level 61, c at next level, right associativity).
Notation "c ;;; k" := (Eff.bind c (fun _ => k))
  (at level 61, right associativity).

(** The keyword arguments the dispatcher juggles with. *)
Inductive Arg :=
| ArgNodes (nodes : option (list string))
| ArgPayload (payload : option string).

Definition Kwargs := list (string * Arg).

(** A callable as the dispatcher sees it: the parameter names that
    [inspect.signature] reports, and the call with keyword arguments. *)
Record Callable (A : Type) := {
  parameters : list string;
  call : Kwargs -> Eff.M A
}.
Arguments parameters {A} _.
Arguments call {A} _ _.

Fixpoint kw_lookup (name : string) (kwargs : Kwargs) : option Arg :=
  match kwargs with
  | [] => None
  | (k, v) :: rest => if String.eqb k name then Some v else kw_lookup name rest
  end.

(** The value bound to a parameter of type [Optional[List[str]]] (default
    [None]) and to the [payload] parameter (default [None]). *)
Definition kw_nodes (name : string) (kwargs : Kwargs) : option (list string) :=
  match kw_lookup name kwargs with
  | Some (ArgNodes n) => n
  | _ => None
  end.

Definition kw_payload (name : string) (kwargs : Kwargs) : option string :=
  match kw_lookup name kwargs with
  | Some (ArgPayload p) => p
  | _ => None
  end.

(** ** The heal rules' patterns

    [auto_heal] looks for the rule's message as a plain substring and the
    heal functions use the same message as the head of a regular
    expression.  The two messages contain no regular-expression operator
    other than ['.'], which is what [match_head] implements: ['.'] stands for
    any character but a newline, every other character for itself. *)
Module HealPattern.

Definition address_in_use_msg : string :=
  "programming external connectivity on endpoint".
Definition docker_in_use_msg : string :=
  "Error response from daemon: Conflict. The container name".

(** Match [pat] at the head of [s]; the rest of [s] on success. *)
Fixpoint match_head (pat s : string) : option string :=
  match pat with
  | EmptyString => Some s
  | String p pat' =>
      match s with
      | EmptyString => None
      | String c s' =>
          if (Ascii.eqb p "."%char && negb (Ascii.eqb c (ascii_of_nat 10)))
             || (negb (Ascii.eqb p "."%char) && Ascii.eqb p c)
          then match_head pat' s'
          else None
      end
  end.

Fixpoint take_while (f : ascii -> bool) (s : string) : string :=
  match s with
  | EmptyString => EmptyString
  | String c rest => if f c then String c (take_while f rest) else EmptyString
  end.

Fixpoint drop_while (f : ascii -> bool) (s : string) : string :=
  match s with
  | EmptyString => EmptyString
  | String c rest => if f c then drop_while f rest else s
  end.

(** Group 1 of [msg (\w+)] at the head of [s]. *)
Definition word_at (msg s : string) : option string :=
  match match_head (msg ++ " ") s with
  | Some rest =>
      match take_while PyStr.is_word rest with
      | EmptyString => None
      | w => Some w
      end
  | None => None
  end.

(** [re.search] for that pattern: group 1 of the leftmost match. *)
Fixpoint search_word (msg s : string) : option string :=
  match word_at msg s with
  | Some w => Some w
  | None => match s with
            | EmptyString => None
            | String _ rest => search_word msg rest
            end
  end.

Definition not_dquote (c : ascii) : bool := negb (Ascii.eqb c (ascii_of_nat 34)).

(** Group 1 of the pattern made of [msg], a space, a double quote, a
    slash, the group (one or more characters that are not a double quote)
    and a closing double quote, at the head of [s]. *)
Definition quoted_at (msg s : string) : option string :=
  match match_head (msg ++ " " ++ PyStr.dquote ++ "/") s with
  | Some rest =>
      match take_while not_dquote rest, drop_while not_dquote rest with
      | EmptyString, _ => None
      | w, String _ _ => Some w      (* the closing quote follows *)
      | _, EmptyString => None
      end
  | None => None
  end.

(** [re.search] for that pattern: group 1 of the leftmost match. *)
Fixpoint search_quoted (msg s : string) : option string :=
  match quoted_at msg s with
  | Some w => Some w
  | None => match s with
            | EmptyString => None
            | String _ rest => search_quoted msg rest
            end
  end.

End HealPattern.

(* ===================================================================== *)
(** ** The environment of a manager

    Everything the controller reads from its configuration and everything
    the outside world answers.  An answer may depend on the whole trace of
    what has been done so far, so that any deterministic behaviour of
    docker, of the nodes and of the clock is an instance. *)

(** A response of [post_with_auth], kept as a document. *)
Definition Json := string.

Record Env := {
  (* configuration: conf_p and the constructor arguments *)
  conf_nodes_name : list string;            (* conf_p.get_nodes_name() *)
  compose_yml_path : string;
  project_name : string;
  nano_nodes_path : string;
  get_node_name_from_rpc_url : string -> string;
  get_node_rpc : string -> res string;      (* conf_p.get_node_rpc(node): the
                                             address, or the exception it
                                             raises for a node it does not
                                             know *)
  (* the world *)
  subprocess_run : Trace -> Cmd -> bool -> option string
                   -> CompletedProcess + ProcessError;
  rpc_probe : Trace -> string -> res bool;  (* block_count(max_retry=0): the
                                             truth value of the answer, or the
                                             exception *)
  time_time : Trace -> PyFloat.float;       (* seconds *)
  rpc_block_count : Trace -> string -> res (string * string); (* count, cemented *)
  rpc_version : Trace -> string -> res VersionInfo;
  rpc_post_with_auth : Trace -> string -> option string -> res Json;
  json_dumps : list Json -> string;         (* json.dumps(.., indent=2) *)
  collaborator : Trace -> Collab -> res PyValue;
  (* whether the decorator of the actions keeps their signature *)
  decorator_keeps_signature : bool
}.

Section Controller.

Variable env : Env.

Import Eff.

(** An oracle whose answer may be an exception. *)
Definition ask {A} (answer : Trace -> res A) (ev : Event) : M A :=
  fun t => (answer t, (t ++ [ev])%list).

(* ------------------------------------------------------------------- *)
(** *** Process Executor and Auto-Healer *)

(** The type of [_subprocess_capture_raise(cmd, shell, cwd, increment)]. *)
Definition Exec := Cmd -> bool -> option string -> Z -> M CompletedProcess.

Definition _heal_address_in_use (exec : Exec) (error_msg stderr : string) : M bool :=
  match HealPattern.search_word error_msg stderr with
  | None => raise (AttributeError "'NoneType' object has no attribute 'group'")
  | Some container_name =>
      exec (CmdStr ("docker stop -t 0 " ++ container_name
                    ++ " && sleep 5 && docker start " ++ container_name))
           true None 0 ;;;
      ret true
  end.

Definition _heal_docker_in_use (exec : Exec) (error_msg stderr : string) : M bool :=
  match HealPattern.search_quoted error_msg stderr with
  | Some container_name =>
      exec (CmdStr ("docker stop -t 0 " ++ container_name
                    ++ " && docker rm " ++ container_name ++ " && sleep 5"))
           true None 0 ;;;
      ret true
  | None => ret false
  end.

Definition HealRule : Type := string * (string * (string -> string -> M bool)).

Definition healable_errors (exec : Exec) : list HealRule :=
  [ ("address_in_use", (HealPattern.address_in_use_msg, _heal_address_in_use exec));
    ("docker_in_use", (HealPattern.docker_in_use_msg, _heal_docker_in_use exec)) ].

(** The [for] loop of [auto_heal] over the rules that are left, and the
    statement after it. *)
Fixpoint heal_loop (exec : Exec) (rules : list HealRule) (error : ProcessError)
  (cmd_shell : bool) (cmd_cwd : option string) (increment : Z) : M CompletedProcess :=
  match rules with
  | [] => raise (ValueError (e_stderr error))
  | (_, (error_msg, heal_func)) :: rest =>
      if negb (PyStr.contains error_msg (e_stderr error))
      then heal_loop exec rest error cmd_shell cmd_cwd increment
      else
        healed <- heal_func error_msg (e_stderr error) ;;
        if healed : bool
        then exec (e_cmd error) cmd_shell cmd_cwd (increment + 1)
        else heal_loop exec rest error cmd_shell cmd_cwd increment
  end.

Definition auto_heal (exec : Exec) (error : ProcessError)
  (cmd_shell : bool) (cmd_cwd : option string) (increment : Z) : M CompletedProcess :=
  if 10 <=? increment then raise (CalledProcessError error)
  else heal_loop exec (healable_errors exec) error cmd_shell cmd_cwd increment.

(** [fuel] bounds the depth of the recursion through [auto_heal]. *)
Fixpoint _subprocess_capture_raise (fuel : nat) (cmd : Cmd) (shell : bool)
  (cwd : option string) (increment : Z) : M CompletedProcess :=
  match fuel with
  | O => diverge
  | S fuel' =>
      outcome <- perform (fun t => subprocess_run env t cmd shell cwd)
                         (EvRun cmd shell cwd) ;;
      match outcome with
      | inl result => ret result
      | inr e => auto_heal (_subprocess_capture_raise fuel') e shell cwd increment
      end
  end.

(* ------------------------------------------------------------------- *)
(** *** Orchestration Client *)

Definition _run_docker_compose_command (fuel : nat) (command : list string)
  (nodes : option (list string)) : M CompletedProcess :=
  let base_command :=
    (["docker-compose"; "-f"; compose_yml_path env; "-p"; project_name env]
       ++ command
       ++ match nodes with Some l => l | None => [] end)%list in
  _subprocess_capture_raise fuel (CmdList base_command) false None 0.

Fixpoint _online_containers (fuel : nat) (node_names : list string) : M (list string) :=
  match node_names with
  | [] => ret []
  | container :: rest =>
      res <- _subprocess_capture_raise fuel
               (CmdStr ("docker ps |grep " ++ container ++ "$ | wc -l")) true None 0 ;;
      online <- lift (py_int (PyStr.strip (cp_stdout res))) ;;
      others <- _online_containers fuel rest ;;
      ret (if online =? 1 then container :: others else others)
  end.

(* ------------------------------------------------------------------- *)
(** *** Status Aggregator *)

Definition node_metrics (node : string) : M NodeMetrics :=
  block_count <- ask (fun t => rpc_block_count env t node) (EvRpc node BlockCount) ;;
  version_rpc_call <- ask (fun t => rpc_version env t node) (EvRpc node Version) ;;
  count_int <- lift (py_int (fst block_count)) ;;
  ret {| node_name := get_node_name_from_rpc_url env node;
         count := count_int;
         cemented := snd block_count;
         version := version_rpc_call |}.

(** The RPC clients are made first, one for each name (the address of
    every name is looked up before any node is asked) or, without names,
    one for each configured node; a client is known here by the name of its
    node. *)
Definition _get_nodes_block_counts (nodes_name : option (list string))
  : M (list NodeMetrics) :=
  match nodes_name with
  | Some l =>
      lift (ResMonad.mapM (get_node_rpc env) l) ;;;
      for_each node_metrics l
  | None => for_each node_metrics (conf_nodes_name env)
  end.

Definition network_status (fuel : nat) (nodes_name : option (list string)) : M string :=
  match nodes_name with
  | Some [] => ret ""
  | _ =>
      let nodes_name := conf_nodes_name env in
      online_containers <- _online_containers fuel nodes_name ;;
      let status_msg :=
        online_containers_status online_containers
          (Z.of_nat (List.length nodes_name)) in
      nodes_block_count <- _get_nodes_block_counts (Some online_containers) ;;
      report <- lift (_generate_network_status_report nodes_name nodes_block_count) ;;
      ret (status_msg ++ report)
  end.

(* ------------------------------------------------------------------- *)
(** *** Readiness Poller *)

(** One probe, in the world as it is when the round starts.  The address
    of the node is looked up before the [try]: an exception of the lookup
    leaves the function.  Inside the [try] the node is reachable if the
    block count comes back and is not empty, unreachable on any exception.
    The [timeout] is not used. *)
Definition _is_rpc_available (t : Trace) (container : string) (timeout : Z)
  : res (string * bool) :=
  let! rpc_url := get_node_rpc env container in
  match rpc_probe env t container with
  | Ret true => Ret (container, true)
  | _ => Ret (container, false)
  end.

(** One round: every node of [nodes] is handed to the pool; [executor.map]
    gives the answers back in the order of [nodes], and the first probe in
    that order that has raised raises again when its answer is taken. *)
Definition get_unavailable_nodes (nodes : list string) (timeout : Z)
  : M (list string) :=
  fun t =>
    (let! results :=
       ResMonad.mapM (fun container => _is_rpc_available t container timeout) nodes in
     Ret (map fst (filter (fun result => negb (snd result)) results)),
     (t ++ map EvProbe nodes)%list).

(** [time.time() - start_time > max_timeout_s] *)
Definition deadline_passed (start_time now : PyFloat.float) (max_timeout_s : Z) : bool :=
  PyFloat.gt_int (PyFloat.sub now start_time) max_timeout_s.

(** The [while] loop; [fuel] bounds the number of rounds. *)
Fixpoint poll_rounds (fuel : nat) (wait : bool) (timeout max_timeout_s : Z)
  (start_time : PyFloat.float) (nodes_to_check : list string) {struct fuel} : M unit :=
  match nodes_to_check with
  | [] => ret tt
  | _ :: _ =>
      if negb wait then ret tt
      else
        match fuel with
        | O => diverge
        | S fuel' =>
            still <- get_unavailable_nodes nodes_to_check timeout ;;
            now <- perform (time_time env) EvClock ;;
            if deadline_passed start_time now max_timeout_s
            then raise (ValueError ("TIMEOUT: RPCs not reachable for nodes "
                                    ++ PyStr.str_list still))
            else
              match still with
              | [] => ret tt
              | _ :: _ => perform (fun _ => tt) (EvSleep 1)
              end ;;;
              poll_rounds fuel' wait timeout max_timeout_s start_time still
        end
  end.

Definition _wait_for_rpc_availability (fuel : nat) (nodes_name : option (list string))
  (wait : bool) (timeout max_timeout_s : Z) : M unit :=
  start_time <- perform (time_time env) EvClock ;;
  let nodes_name :=
    match nodes_name with
    | Some (n :: l) => n :: l
    | _ => conf_nodes_name env
    end in
  poll_rounds fuel wait timeout max_timeout_s start_time nodes_name.

End Controller.

(* ===================================================================== *)
(** ** Actions and the Command Dispatcher *)

Section Dispatcher.

Variable env : Env.

Import Eff.

Definition none_after {A} (c : M A) : M PyValue := c ;;; ret PyNone.

Definition restart_containers (fuel : nat) (nodes : option (list string)) : M PyValue :=
  none_after (_run_docker_compose_command env fuel ["restart"] nodes).

Definition build_containers (fuel : nat) : M PyValue :=
  none_after (_run_docker_compose_command env fuel ["build"] None).

Definition start_containers (fuel : nat) (nodes : option (list string)) : M PyValue :=
  _run_docker_compose_command env fuel ["up"; "-d"] nodes ;;;
  _wait_for_rpc_availability env fuel nodes true 10 15 ;;;
  ret PyNone.

Definition stop_containers (fuel : nat) (nodes : option (list string)) : M PyValue :=
  none_after (_run_docker_compose_command env fuel ["stop"] nodes).

Definition remove_containers (fuel : nat) : M PyValue :=
  none_after (_run_docker_compose_command env fuel ["down"] None).

Definition destroy (fuel : nat) (remove_files : bool) : M PyValue :=
  remove_containers fuel ;;;
  if remove_files
  then ask (fun t => collaborator env t (ShutilRmtree (nano_nodes_path env)))
           (EvCollab (ShutilRmtree (nano_nodes_path env)))
  else ret PyNone.

Definition ldb_removal : string :=
  "rm -f $(find . -name " ++ PyStr.dquote ++ "*.ldb" ++ PyStr.dquote ++ ")".

(** The second positional argument of [_subprocess_capture_raise] is
    [shell]: the node path lands there, and counts as true unless empty;
    [cwd] keeps its default. *)
Definition reset_nodes_data (fuel : nat) (nodes : option (list string)) : M PyValue :=
  stop_containers fuel nodes ;;;
  let selected := match nodes with Some (n :: l) => true | _ => false end in
  let nodes_to_process := match nodes with Some (n :: l) => n :: l | _ => ["."] end in
  for_each
    (fun node =>
       let node_path :=
         if selected then nano_nodes_path env ++ "/" ++ node else nano_nodes_path env in
       _subprocess_capture_raise env fuel (CmdStr ldb_removal)
         (negb (String.eqb node_path "")) None 0)
    nodes_to_process ;;;
  ret PyNone.

Definition create_docker_compose_file : M PyValue :=
  ask (fun t => collaborator env t CreateDockerComposeFile)
      (EvCollab CreateDockerComposeFile).

Definition init_nodes : M PyValue :=
  ask (fun t => collaborator env t InitNodes) (EvCollab InitNodes).

Definition _rpc_validator (nodes : option (list string)) (payload : option string)
  : M (option (list string) * option string) :=
  match payload with
  | None | Some EmptyString =>
      raise (ValueError "The --payload argument is required for the 'rpc' command.")
  | Some _ => ret (nodes, payload)
  end.

Definition run_rpc (payload : option string) (nodes : option (list string)) : M PyValue :=
  let nodes := match nodes with Some l => l | None => conf_nodes_name env end in
  responses <- for_each
                 (fun node =>
                    lift (get_node_rpc env node) ;;;
                    ask (fun t => rpc_post_with_auth env t node payload)
                        (EvRpc node (PostWithAuth payload)))
                 nodes ;;
  ret (PyStr (json_dumps env responses)).

(** Modelled from the spec: [log_on_success] is defined in
    [nanomock.internal.utils], which is not among the sources.  The
    specification describes every action by the parameters it declares and
    by the result it returns, so the decorated function is taken to return
    what the function returns.  Whether [inspect.signature] sees the
    function's own parameters through the decorator, or those of a wrapper
    taking any arguments, is left to the environment. *)
Definition log_on_success {A} (f : Callable A) : Callable A :=
  {| parameters := if decorator_keeps_signature env then parameters f
                   else ["args"; "kwargs"];
     call := call f |}.

Definition Action := Callable PyValue.
Definition Validator := Callable (option (list string) * option string).

Definition on_nodes (name : string) (f : option (list string) -> M PyValue) : Action :=
  {| parameters := [name]; call := fun kwargs => f (kw_nodes name kwargs) |}.

Definition no_argument (f : M PyValue) : Action :=
  {| parameters := []; call := fun _ => f |}.

Definition network_status_action (fuel : nat) : Action :=
  log_on_success
    (on_nodes "nodes_name"
       (fun nodes_name => s <- network_status env fuel nodes_name ;; ret (PyStr s))).

Definition run_rpc_action : Action :=
  log_on_success
    {| parameters := ["payload"; "nodes"];
       call := fun kwargs => run_rpc (kw_payload "payload" kwargs) (kw_nodes "nodes" kwargs) |}.

Definition _rpc_validator_callable : Validator :=
  {| parameters := ["nodes"; "payload"];
     call := fun kwargs =>
               _rpc_validator (kw_nodes "nodes" kwargs) (kw_payload "payload" kwargs) |}.

(** [_initialize_command_mapping], in the order of the dictionary. *)
Definition command_mapping (fuel : nat) : list (string * (Action * option Validator)) :=
  [ ("create", (log_on_success (no_argument create_docker_compose_file), None));
    ("start", (log_on_success (on_nodes "nodes" (start_containers fuel)), None));
    ("status", (network_status_action fuel, None));
    ("restart", (log_on_success (on_nodes "nodes" (restart_containers fuel)), None));
    ("reset", (log_on_success (on_nodes "nodes" (reset_nodes_data fuel)), None));
    ("init", (log_on_success (no_argument init_nodes), None));
    ("stop", (log_on_success (on_nodes "nodes" (stop_containers fuel)), None));
    ("remove", (log_on_success (no_argument (remove_containers fuel)), None));
    ("down", (log_on_success (no_argument (remove_containers fuel)), None));
    ("destroy", (no_argument (destroy fuel true), None));
    ("rpc", (run_rpc_action, Some _rpc_validator_callable)) ].

Fixpoint mapping_lookup {V} (command : string) (mapping : list (string * V)) : option V :=
  match mapping with
  | [] => None
  | (k, v) :: rest => if String.eqb k command then Some v else mapping_lookup command rest
  end.

Definition _filter_args {A} (func : Callable A) (kwargs : Kwargs) : Kwargs :=
  filter (fun kv => existsb (String.eqb (fst kv)) (parameters func)) kwargs.

Definition execute_command (fuel : nat) (command : string)
  (nodes : option (list string)) (payload : option string) : M PyValue :=
  match mapping_lookup command (command_mapping fuel) with
  | None => raise (ValueError ("Invalid command: " ++ command))
  | Some (command_func, validator_func) =>
      validated <-
        match validator_func with
        | Some validator =>
            let filtered_validator_args :=
              _filter_args validator
                [("nodes", ArgNodes nodes); ("payload", ArgPayload payload)] in
            call validator filtered_validator_args
        | None => ret (nodes, payload)
        end ;;
      let filtered_command_args :=
        _filter_args command_func
          [("nodes", ArgNodes (fst validated)); ("payload", ArgPayload (snd validated))] in
      call command_func filtered_command_args ;;;
      ret PyNone
  end.

End Dispatcher.

(* ===================================================================== *)
(** ** Maintenance operations

    Functions of the manager that no command of the dispatcher reaches. *)

Section Maintenance.

Variable env : Env.

Import Eff.

Definition _count_online_containers (fuel : nat) (node_names : list string) : M Z :=
  online_containers <- _online_containers env fuel node_names ;;
  ret (Z.of_nat (List.length online_containers)).

Definition update (fuel : nat) : M PyValue :=
  _run_docker_compose_command env fuel ["pull"] None ;;;
  remove_containers env fuel ;;;
  build_containers env fuel ;;;
  ret PyNone.

Definition init_containers (fuel : nat) : M PyValue :=
  create_docker_compose_file env ;;;
  build_containers env fuel ;;;
  ret PyNone.

End Maintenance.

(** ** Descriptions of environments and traces used in the properties *)

(** The command lines that the heal rules issue begin with a forced stop. *)
Definition is_remediation (cmd : Cmd) : bool :=
  match cmd with
  | CmdStr s => prefix "docker stop -t 0 " s
  | CmdList _ => false
  end.

(** Docker carries out every remediation command. *)
Definition remediation_succeeds (env : Env) : Prop :=
  forall t cmd shell cwd,
    is_remediation cmd = true ->
    exists result, subprocess_run env t cmd shell cwd = inl result.

(** Every process ends with exit status zero. *)
Definition every_process_succeeds (env : Env) : Prop :=
  forall t cmd shell cwd, exists result, subprocess_run env t cmd shell cwd = inl result.

(** The [docker ps | grep | wc -l] line of [_online_containers]. *)
Definition docker_ps_line (container : string) : Cmd :=
  CmdStr ("docker ps |grep " ++ container ++ "$ | wc -l").

(** The compose command line of [_run_docker_compose_command]. *)
Definition compose_line (env : Env) (command nodes : list string) : Cmd :=
  CmdList (["docker-compose"; "-f"; compose_yml_path env; "-p"; project_name env]
             ++ command ++ nodes)%list.

(** The nodes asked over RPC in a trace, in order. *)
Fixpoint rpc_calls (t : Trace) : list string :=
  match t with
  | [] => []
  | EvRpc node _ :: rest => node :: rpc_calls rest
  | _ :: rest => rpc_calls rest
  end.

(** The event is a process run in the directory [cwd] or in none. *)
Definition runs_in (cwd : option string) (ev : Event) : Prop :=
  exists cmd shell dir, ev = EvRun cmd shell dir /\ (dir = cwd \/ dir = None).

(** The characters of a text. *)
Fixpoint chars (s : string) : list ascii :=
  match s with
  | EmptyString => []
  | String c rest => c :: chars rest
  end.

(* ===================================================================== *)
(** ** What the specification says, in its own words *)

(** The percentage of the specification, [floor(c / m * 10000) / 100], read
    over the exact numbers: its value in hundredths, and the two-decimal
    text of a number of hundredths. *)
Definition truncated_hundredths (c m : Z) : Z := (c * 10000) / m.

Definition hundredths_text (h : Z) : string :=
  PyStr.str_int (h / 100) ++ "." ++ PyFloat.two_digits (h mod 100).

(** What [format_report_line] puts between the version and the percent
    sign, before padding. *)
Definition rendered_percentage (cemented_text : string) (max_count : Z) : res string :=
  let! pct := synced_percentage cemented_text max_count in
  Ret (PyFloat.format_2f pct).

(* ===================================================================== *)
(** ** Scenarios *)

Module Scenario.

Definition nano_version : VersionInfo :=
  {| node_vendor := "Nano"; build_info := "V25.0 2023-05-01" |}.

Definition metrics (name : string) (blocks : Z) (cemented_text : string) : NodeMetrics :=
  {| node_name := name; count := blocks; cemented := cemented_text;
     version := nano_version |}.

(** A network of two nodes in which everything works: docker answers
    every command, [docker ps | grep | wc -l] prints 1, every node
    answers its RPC, and the clock advances by one second per reading. *)
Definition clock_readings (t : Trace) : Z :=
  Z.of_nat (List.length (filter (fun ev => match ev with EvClock => true | _ => false end) t)).

Definition healthy : Env :=
  {| conf_nodes_name := ["nl_genesis"; "nl_pr1"];
     compose_yml_path := "nano_nodes/docker-compose.yml";
     project_name := "nano_local";
     nano_nodes_path := "nano_nodes";
     get_node_name_from_rpc_url := fun node => node;
     get_node_rpc := fun node => Ret ("http://" ++ node ++ ":17076");
     subprocess_run := fun _ cmd _ _ =>
       inl {| cp_args := cmd; cp_stdout := "1" ++ PyStr.newline; cp_stderr := "" |};
     rpc_probe := fun _ _ => Ret true;
     time_time := fun t => PyFloat.from_int (clock_readings t);
     rpc_block_count := fun _ node =>
       if String.eqb node "nl_genesis" then Ret ("100", "100") else Ret ("100", "40");
     rpc_version := fun _ _ => Ret nano_version;
     rpc_post_with_auth := fun _ node _ => Ret ("{ok: " ++ node ++ "}");
     json_dumps := fun l => "[" ++ PyStr.join ", " l ++ "]";
     collaborator := fun _ _ => Ret PyNone;
     decorator_keeps_signature := true |}.

Definition with_subprocess (env : Env)
  (run : Trace -> Cmd -> bool -> option string -> CompletedProcess + ProcessError) : Env :=
  {| conf_nodes_name := conf_nodes_name env;
     compose_yml_path := compose_yml_path env;
     project_name := project_name env;
     nano_nodes_path := nano_nodes_path env;
     get_node_name_from_rpc_url := get_node_name_from_rpc_url env;
     get_node_rpc := get_node_rpc env;
     subprocess_run := run;
     rpc_probe := rpc_probe env;
     time_time := time_time env;
     rpc_block_count := rpc_block_count env;
     rpc_version := rpc_version env;
     rpc_post_with_auth := rpc_post_with_auth env;
     json_dumps := json_dumps env;
     collaborator := collaborator env;
     decorator_keeps_signature := decorator_keeps_signature env |}.

Definition with_clock (env : Env) (clock : Trace -> PyFloat.float) : Env :=
  {| conf_nodes_name := conf_nodes_name env;
     compose_yml_path := compose_yml_path env;
     project_name := project_name env;
     nano_nodes_path := nano_nodes_path env;
     get_node_name_from_rpc_url := get_node_name_from_rpc_url env;
     get_node_rpc := get_node_rpc env;
     subprocess_run := subprocess_run env;
     rpc_probe := rpc_probe env;
     time_time := clock;
     rpc_block_count := rpc_block_count env;
     rpc_version := rpc_version env;
     rpc_post_with_auth := rpc_post_with_auth env;
     json_dumps := json_dumps env;
     collaborator := collaborator env;
     decorator_keeps_signature := decorator_keeps_signature env |}.

Definition failure (cmd : Cmd) (stderr : string) : ProcessError :=
  {| e_cmd := cmd; e_returncode := 1; e_stdout := ""; e_stderr := stderr |}.

(** Docker refuses every command because a service is unknown: a failure
    that no heal rule knows. *)
Definition no_such_service : string := "no such service: nl_pr9".
Definition unknown_failure : Env :=
  with_subprocess healthy (fun _ cmd _ _ => inr (failure cmd no_such_service)).

(** A port of the host is taken by a foreign process: starting a container
    fails with the address-in-use diagnostic, and so does the restart that
    the heal rule issues, every time. *)
Definition port_taken : string :=
  "Error response from daemon: driver failed programming external connectivity on endpoint nl_pr1 (5f3a): Bind for 0.0.0.0:45000 failed: port is already allocated".
Definition port_conflict : Env :=
  with_subprocess healthy (fun _ cmd _ _ => inr (failure cmd port_taken)).

(** The remediation of the address-in-use rule for that diagnostic. *)
Definition restart_nl_pr1 : Cmd :=
  CmdStr "docker stop -t 0 nl_pr1 && sleep 5 && docker start nl_pr1".

(** The same diagnostic for every orchestration command, while the
    restart issued by the heal rule succeeds each time. *)
Definition is_docker_stop (cmd : Cmd) : bool :=
  match cmd with
  | CmdStr s => prefix "docker stop" s
  | CmdList _ => false
  end.
Definition stubborn_conflict : Env :=
  with_subprocess healthy
    (fun _ cmd _ _ =>
       if is_docker_stop cmd
       then inl {| cp_args := cmd; cp_stdout := ""; cp_stderr := "" |}
       else inr (failure cmd port_taken)).

Definition compose_up : Cmd :=
  CmdList ["docker-compose"; "-f"; "nano_nodes/docker-compose.yml"; "-p";
           "nano_local"; "up"; "-d"].

(** Every node answers in the first round, but the round has taken sixteen
    seconds: the clock reads 0 at the start and 16 afterwards. *)
Definition slow_round : Env :=
  with_clock healthy
    (fun t => if clock_readings t =? 0 then PyFloat.from_int 0 else PyFloat.from_int 16).

(** No node ever answers and the clock stands still. *)
Definition silent_nodes : Env :=
  {| conf_nodes_name := ["nl_genesis"; "nl_pr1"];
     compose_yml_path := "nano_nodes/docker-compose.yml";
     project_name := "nano_local";
     nano_nodes_path := "nano_nodes";
     get_node_name_from_rpc_url := fun node => node;
     get_node_rpc := get_node_rpc healthy;
     subprocess_run := subprocess_run healthy;
     rpc_probe := fun _ _ => Raise (ExternalError "connection refused");
     time_time := fun _ => PyFloat.from_int 0;
     rpc_block_count := rpc_block_count healthy;
     rpc_version := rpc_version healthy;
     rpc_post_with_auth := rpc_post_with_auth healthy;
     json_dumps := json_dumps healthy;
     collaborator := collaborator healthy;
     decorator_keeps_signature := true |}.

End Scenario.


(* ===================================================================== *)
(** ** Observations on traces and outcomes *)

(** The nodes probed in a trace, in order. *)
Fixpoint probes (t : Trace) : list string :=
  match t with
  | [] => []
  | EvProbe node :: rest => node :: probes rest
  | _ :: rest => probes rest
  end.

(** The time spent in [time.sleep]. *)
Fixpoint slept (t : Trace) : Z :=
  match t with
  | [] => 0
  | EvSleep s :: rest => s + slept rest
  | _ :: rest => slept rest
  end.

(** The commands run in a trace, in order. *)
Fixpoint commands_run (t : Trace) : list Cmd :=
  match t with
  | [] => []
  | EvRun cmd _ _ :: rest => cmd :: commands_run rest
  | _ :: rest => commands_run rest
  end.

(** The outcome of a computation with its value dropped: what is left of an
    action's outcome when the caller does not look at what it returns. *)
Definition drop_value {A} (outcome : res A * Trace) : res PyValue * Trace :=
  match outcome with
  | (Ret _, t) => (Ret PyNone, t)
  | (Raise e, t) => (Raise e, t)
  | (Diverge, t) => (Diverge, t)
  end.

(** The commands of [_initialize_command_mapping]. *)
Definition registered_commands : list string :=
  ["create"; "start"; "status"; "restart"; "reset"; "init"; "stop"; "remove";
   "down"; "destroy"; "rpc"].

(** The two stages of a dispatch: the validator, if any, on the arguments it
    accepts; then the action on the validated arguments it accepts. *)
Definition invoke (action : Callable PyValue)
  (validator : option (Callable (option (list string) * option string)))
  (nodes : option (list string)) (payload : option string) : Eff.M PyValue :=
  validated <-
    match validator with
    | Some v =>
        call v (_filter_args v [("nodes", ArgNodes nodes); ("payload", ArgPayload payload)])
    | None => Eff.ret (nodes, payload)
    end ;;
  call action
    (_filter_args action
       [("nodes", ArgNodes (fst validated)); ("payload", ArgPayload (snd validated))]).
(* ===================================================================== *)
(** * Properties *)

(** ** Results and lists *)

Lemma mapM_Ret_Forall2 {A B} (f : A -> res B) (l : list A) (ys : list B) :
  ResMonad.mapM f l = Ret ys <-> Forall2 (fun x y => f x = Ret y) l ys.
Proof.
  revert ys. induction l as [|x xs IH]; intros ys; simpl.
  - split.
    + intros H. injection H as <-. constructor.
    + intros H. inversion H. reflexivity.
  - split.
    + destruct (f x) as [y| |] eqn:Hx; simpl; try discriminate.
      destruct (ResMonad.mapM f xs) as [zs| |] eqn:Hxs; simpl; try discriminate.
      intros H. injection H as <-. constructor; [assumption|].
      apply IH. reflexivity.
    + intros H. inversion H as [|x' y l' zs Hx Hrest]; subst.
      rewrite Hx. simpl. apply IH in Hrest. rewrite Hrest. reflexivity.
Qed.


(** If some element raises [e] and every element either returns or raises
    [e], the whole traversal raises [e]. *)
Lemma mapM_raises {A B} (f : A -> res B) (l : list A) (e : exn) :
  (forall x, In x l -> (exists y, f x = Ret y) \/ f x = Raise e) ->
  (exists x, In x l /\ f x = Raise e) ->
  ResMonad.mapM f l = Raise e.
Proof.
  induction l as [|x xs IH]; intros Hall [z [Hin Hz]]; simpl.
  - destruct Hin.
  - destruct (Hall x (or_introl eq_refl)) as [[y Hy] | Hx].
    + rewrite Hy. simpl.
      rewrite IH; [reflexivity | intros w Hw; apply Hall; right; exact Hw |].
      destruct Hin as [-> | Hin]; [congruence|].
      exists z. split; assumption.
    + rewrite Hx. reflexivity.
Qed.

(** ** The status report *)

Lemma get_node_data_In metrics name bc :
  get_node_data metrics name = Some bc -> In bc metrics /\ node_name bc = name.
Proof.
  induction metrics as [|b rest IH]; simpl; [discriminate|].
  destruct (String.eqb (node_name b) name) eqn:E.
  - intros H. injection H as <-. split; [left; reflexivity|].
    apply String.eqb_eq. exact E.
  - intros H. destruct (IH H) as [Hin Hn]. split; [right; exact Hin | exact Hn].
Qed.

Lemma get_node_data_found metrics bc :
  In bc metrics -> exists bc', get_node_data metrics (node_name bc) = Some bc'.
Proof.
  induction metrics as [|b rest IH]; simpl; [intros []|].
  intros [-> | Hin].
  - rewrite String.eqb_refl. eexists. reflexivity.
  - destruct (String.eqb (node_name b) (node_name bc)).
    + eexists. reflexivity.
    + apply IH. exact Hin.
Qed.

Lemma fold_max_zero (l : list Z) (a : Z) :
  a = 0 -> (forall x, In x l -> x = 0) -> fold_left Z.max l a = 0.
Proof.
  revert a. induction l as [|x xs IH]; intros a Ha H; simpl; [exact Ha|].
  apply IH.
  - rewrite Ha, (H x (or_introl eq_refl)). reflexivity.
  - intros y Hy. apply H. right. exact Hy.
Qed.

Lemma max_count_all_zero metrics :
  (forall bc, In bc metrics -> count bc = 0) -> max_count_of metrics = 0.
Proof.
  destruct metrics as [|b rest]; intros H; simpl; [reflexivity|].
  apply fold_max_zero.
  - apply H. left. reflexivity.
  - intros x Hx. apply in_map_iff in Hx. destruct Hx as [bc [<- Hbc]].
    apply H. right. exact Hbc.
Qed.

Lemma fold_max_ge (l : list Z) (a : Z) :
  a <= fold_left Z.max l a /\ forall x, In x l -> x <= fold_left Z.max l a.
Proof.
  revert a. induction l as [|x xs IH]; intros a; simpl.
  - split; [lia | intros x []].
  - destruct (IH (Z.max a x)) as [Hacc Hall]. split; [lia|].
    intros y [<- | Hy]; [lia | apply Hall; exact Hy].
Qed.

Lemma fold_max_attained (l : list Z) (a : Z) :
  fold_left Z.max l a = a \/ In (fold_left Z.max l a) l.
Proof.
  revert a. induction l as [|x xs IH]; intros a; simpl; [left; reflexivity|].
  destruct (IH (Z.max a x)) as [H | H].
  - rewrite H. destruct (Z.max_spec a x) as [[_ ->] | [_ ->]]; auto.
  - right. right. exact H.
Qed.

(** The maximum is the block count of one of the entries. *)
Lemma max_count_attained metrics :
  metrics <> [] -> exists bc, In bc metrics /\ count bc = max_count_of metrics.
Proof.
  destruct metrics as [|b rest]; intros H; [congruence|]. simpl.
  destruct (fold_max_attained (map count rest) (count b)) as [E | E].
  - exists b. split; [left; reflexivity | symmetry; exact E].
  - apply in_map_iff in E. destruct E as [bc [E Hbc]].
    exists bc. split; [right; exact Hbc | exact E].
Qed.

(** With a zero divisor no line can be formatted. *)
Lemma format_report_line_zero_divisor bc :
  (exists msg, format_report_line 0 bc = Raise (ValueError msg))
  \/ format_report_line 0 bc = Raise (ZeroDivisionError "division by zero").
Proof.
  unfold format_report_line, synced_percentage, py_int.
  destruct (PyStr.int_of_str (cemented bc)) as [c|]; simpl.
  - right. reflexivity.
  - left. eexists. reflexivity.
Qed.

Lemma format_report_line_zero_divisor_int bc c :
  PyStr.int_of_str (cemented bc) = Some c ->
  format_report_line 0 bc = Raise (ZeroDivisionError "division by zero").
Proof.
  intros H. unfold format_report_line, synced_percentage, py_int.
  rewrite H. reflexivity.
Qed.


(** ** Effects *)

Lemma bind_Ret_inv {A B} (c : Eff.M A) (k : A -> Eff.M B) t v t' :
  (x <- c ;; k x) t = (Ret v, t') ->
  exists a t1, c t = (Ret a, t1) /\ k a t1 = (Ret v, t').
Proof.
  unfold Eff.bind. destruct (c t) as [[a| |] t1]; try discriminate.
  intros H. exists a, t1. split; [reflexivity | exact H].
Qed.

Lemma bind_drop_value {A} (c : Eff.M A) t :
  (c ;;; Eff.ret PyNone) t = drop_value (c t).
Proof.
  unfold Eff.bind, drop_value, Eff.ret. destruct (c t) as [[a| |] t1]; reflexivity.
Qed.

Lemma drop_value_Ret {A} (outcome : res A * Trace) v t' :
  drop_value outcome = (Ret v, t') -> v = PyNone.
Proof.
  destruct outcome as [[a| |] t1]; simpl; intros H; inversion H; reflexivity.
Qed.

(** ** Process Executor and Auto-Healer *)

(** The ceiling: from the tenth retry on, the failure handed to [auto_heal]
    is raised again as it is, whatever its text. *)
Lemma auto_heal_ceiling exec error cmd_shell cmd_cwd increment t :
  10 <= increment ->
  auto_heal exec error cmd_shell cmd_cwd increment t
  = (Raise (CalledProcessError error), t).
Proof.
  intros H. unfold auto_heal.
  destruct (Z.leb_spec 10 increment); [reflexivity | lia].
Qed.

(** Below the ceiling, a failure that no rule knows comes out as a
    [ValueError] made of its standard error text. *)
Lemma auto_heal_unmatched exec error cmd_shell cmd_cwd increment t :
  increment < 10 ->
  PyStr.contains HealPattern.address_in_use_msg (e_stderr error) = false ->
  PyStr.contains HealPattern.docker_in_use_msg (e_stderr error) = false ->
  auto_heal exec error cmd_shell cmd_cwd increment t
  = (Raise (ValueError (e_stderr error)), t).
Proof.
  intros Hlt H1 H2. unfold auto_heal.
  destruct (Z.leb_spec 10 increment); [lia|].
  unfold healable_errors, heal_loop. rewrite H1, H2. reflexivity.
Qed.

Lemma port_taken_is_known :
  PyStr.contains HealPattern.address_in_use_msg Scenario.port_taken = true.
Proof. vm_compute. reflexivity. Qed.

Lemma port_taken_names_container :
  HealPattern.search_word HealPattern.address_in_use_msg Scenario.port_taken
  = Some "nl_pr1".
Proof. vm_compute. reflexivity. Qed.

(** Where the restart issued by the heal rule fails like the command it is
    meant to heal, every level of the recursion runs one command and calls
    the next with the retry count back at zero. *)
Lemma port_conflict_unfolds fuel cmd shell cwd t :
  _subprocess_capture_raise Scenario.port_conflict fuel cmd shell cwd 0 t
  = (Diverge,
     (t ++ match fuel with
           | O => []
           | S n => EvRun cmd shell cwd :: repeat (EvRun Scenario.restart_nl_pr1 true None) n
           end)%list).
Proof.
  revert cmd shell cwd t. induction fuel as [|n IH]; intros cmd shell cwd t.
  - simpl. unfold Eff.diverge. rewrite app_nil_r. reflexivity.
  - cbn [_subprocess_capture_raise]. unfold Eff.bind at 1. unfold Eff.perform at 1.
    cbn [Scenario.port_conflict Scenario.with_subprocess subprocess_run].
    unfold auto_heal. cbn [Z.leb Z.compare].
    unfold healable_errors. cbn [heal_loop Scenario.failure e_stderr e_cmd].
    rewrite port_taken_is_known. cbn [negb].
    unfold _heal_address_in_use. rewrite port_taken_names_container.
    unfold Eff.bind.
    change (CmdStr ("docker stop -t 0 " ++ "nl_pr1" ++ " && sleep 5 && docker start " ++ "nl_pr1"))
      with Scenario.restart_nl_pr1.
    rewrite IH. f_equal. rewrite <- app_assoc. f_equal.
    destruct n as [|m]; reflexivity.
Qed.

(** At the top level the ceiling does its work: when the remediation itself
    succeeds and the command keeps failing, the command is run eleven times,
    ten remediations are made, and the eleventh failure is raised as it is. *)
Lemma stubborn_conflict_stops_after_ten_cycles (k : nat) :
  let outcome :=
    _subprocess_capture_raise Scenario.stubborn_conflict (11 + k)
      Scenario.compose_up false None 0 [] in
  fst outcome
  = Raise (CalledProcessError (Scenario.failure Scenario.compose_up Scenario.port_taken))
  /\ count_occ Nat.eq_dec
       (map (fun cmd => match cmd with CmdStr _ => 1%nat | CmdList _ => 0%nat end)
            (commands_run (snd outcome))) 1%nat = 10%nat
  /\ List.length (commands_run (snd outcome)) = 21%nat.
Proof. vm_compute. repeat split. Qed.

(** C2.  The specification says that a failure whose standard error text
    matches no heal rule reaches the caller as the original failure,
    unmodified.  The code raises another exception in its place: for a
    docker command refused with [no such service], the executor raises a
    [ValueError] holding the text, not the [CalledProcessError] that
    [subprocess.run] raised. *)
Theorem unknown_failure_surfaces_as_value_error :
  forall fuel cmd shell cwd t,
    _subprocess_capture_raise Scenario.unknown_failure (S fuel) cmd shell cwd 0 t
    = (Raise (ValueError Scenario.no_such_service), (t ++ [EvRun cmd shell cwd])%list)
    /\ fst (_subprocess_capture_raise Scenario.unknown_failure (S fuel) cmd shell cwd 0 t)
       <> Raise (CalledProcessError (Scenario.failure cmd Scenario.no_such_service)).
Proof.
  intros fuel cmd shell cwd t.
  assert (E : _subprocess_capture_raise Scenario.unknown_failure (S fuel) cmd shell cwd 0 t
              = (Raise (ValueError Scenario.no_such_service),
                 (t ++ [EvRun cmd shell cwd])%list)).
  { cbn [_subprocess_capture_raise]. unfold Eff.bind at 1. unfold Eff.perform at 1.
    cbn [Scenario.unknown_failure Scenario.with_subprocess subprocess_run].
    apply auto_heal_unmatched; [lia | vm_compute; reflexivity | vm_compute; reflexivity]. }
  split; [exact E|]. rewrite E. simpl. discriminate.
Qed.

(** C4.  The specification says that the recursion between the executor and
    the healer always ends, after ten remediation cycles at most.  The
    remediation commands are run with a retry count of their own, starting
    at zero: where the restart fails with the diagnostic it is meant to
    heal, the count never leaves zero, a fresh remediation is started at
    every level, and no amount of fuel brings an answer. *)
Theorem port_conflict_recursion_unbounded :
  forall fuel cmd shell cwd t,
    fst (_subprocess_capture_raise Scenario.port_conflict fuel cmd shell cwd 0 t) = Diverge
    /\ commands_run
         (snd (_subprocess_capture_raise Scenario.port_conflict (S fuel) cmd shell cwd 0 []))
       = cmd :: repeat Scenario.restart_nl_pr1 fuel.
Proof.
  intros fuel cmd shell cwd t. rewrite !port_conflict_unfolds. split; [reflexivity|].
  cbn [snd app commands_run]. f_equal.
  induction fuel as [|n IH]; [reflexivity|].
  cbn [repeat commands_run]. f_equal. exact IH.
Qed.

(** ** Readiness Poller *)

(** C3, as amended.  With [wait = false] the poller reads the clock once and
    returns: no node is probed, nothing is slept, whatever the pending
    nodes and whatever their state. *)
Theorem no_wait_means_no_probe :
  forall env fuel nodes_name timeout max_timeout_s t,
    _wait_for_rpc_availability env fuel nodes_name false timeout max_timeout_s t
    = (Ret tt, (t ++ [EvClock])%list).
Proof.
  intros env fuel nodes_name timeout max_timeout_s t.
  unfold _wait_for_rpc_availability, Eff.bind, Eff.perform.
  destruct fuel;
    destruct nodes_name as [[|n l]|]; cbn [poll_rounds negb];
    try reflexivity;
    destruct (conf_nodes_name env); reflexivity.
Qed.

(** C3, as the specification has it: one probe for each pending node.  With
    one pending node that does not answer, the trace holds no probe. *)
Lemma no_wait_probes_nothing :
  probes (snd (_wait_for_rpc_availability Scenario.silent_nodes 5
                 (Some ["nl_pr1"]) false 10 15 []))
  <> ["nl_pr1"].
Proof. vm_compute. discriminate. Qed.

(** C7.  The specification says that a timeout is raised only while some
    node is still unreachable.  The deadline is tested before the list of
    pending nodes is looked at: when the last node answers in a round that
    ends after the deadline, the poller raises the timeout with an empty
    list of nodes. *)
Theorem timeout_raised_with_every_node_reachable :
  forall fuel,
    _wait_for_rpc_availability Scenario.slow_round (S fuel) (Some ["nl_pr1"]) true 10 15 []
    = (Raise (ValueError "TIMEOUT: RPCs not reachable for nodes []"),
       [EvClock; EvProbe "nl_pr1"; EvClock]).
Proof. intros fuel. vm_compute. reflexivity. Qed.

(** What holds of the deadline: a round that ends after it raises the
    timeout, naming the nodes that did not answer in that round. *)
Lemma round_past_deadline_raises env fuel timeout max_timeout_s start_time node rest t still :
  fst (get_unavailable_nodes env (node :: rest) timeout t) = Ret still ->
  deadline_passed start_time
    (time_time env (t ++ map EvProbe (node :: rest))%list) max_timeout_s = true ->
  poll_rounds env (S fuel) true timeout max_timeout_s start_time (node :: rest) t
  = (Raise (ValueError ("TIMEOUT: RPCs not reachable for nodes " ++ PyStr.str_list still)),
     ((t ++ map EvProbe (node :: rest)) ++ [EvClock])%list).
Proof.
  intros Hs Hd. cbn [poll_rounds negb]. unfold Eff.bind at 1.
  unfold get_unavailable_nodes in *. cbn [fst] in Hs. rewrite Hs.
  unfold Eff.bind at 1. unfold Eff.perform at 1. rewrite Hd. reflexivity.
Qed.

(** ** Status Aggregator *)

(** The examples of the specification: 40 of 100, 100 of 100 and 33 of 100
    are rendered as the specification says. *)
Lemma specification_examples_render :
  rendered_percentage "40" 100 = Ret "40.00"
  /\ rendered_percentage "100" 100 = Ret "100.00"
  /\ rendered_percentage "33" 100 = Ret "33.00".
Proof. vm_compute. repeat split. Qed.

(** C5.  The specification gives the percentage as
    [floor(c / m * 10000) / 100], the ratio cut after two decimals.  The
    code evaluates the formula in binary floating point, where 57 / 100 is
    a little less than 0.57 and its product with 10000 a little less than
    5700: a node with 57 of 100 blocks cemented is shown at 56.99%, while
    the ratio cut after two decimals is 57.00. *)
Theorem fifty_seven_percent_renders_56_99 :
  rendered_percentage "57" 100 = Ret "56.99"
  /\ hundredths_text (truncated_hundredths 57 100) = "57.00"
  /\ format_report_line 100 (Scenario.metrics "nl_pr1" 100 "57")
     = Ret "nl_pr1           Nano V25.0            56.99% synced | 57/100 blocks cemented".
Proof. vm_compute. repeat split. Qed.




(** C10.  When the metrics are not empty, belong to declared nodes and
    carry integer cemented counts, and every block count is zero, the
    report is not made: the division by the maximum block count raises
    [ZeroDivisionError].  And when block counts are not negative, a report
    is made only if some node has a positive block count. *)
Theorem zero_block_counts_divide_by_zero :
  forall nodes metrics,
    metrics <> [] ->
    (forall bc, In bc metrics -> In (node_name bc) nodes) ->
    ((forall bc, In bc metrics -> count bc = 0) ->
     (forall bc, In bc metrics -> exists c, PyStr.int_of_str (cemented bc) = Some c) ->
     _generate_network_status_report nodes metrics
     = Raise (ZeroDivisionError "division by zero"))
    /\ ((forall bc, In bc metrics -> 0 <= count bc) ->
        forall report,
          _generate_network_status_report nodes metrics = Ret report ->
          exists bc, In bc metrics /\ 0 < count bc).
Proof.
  intros nodes metrics Hne Hdecl. split.
  - intros Hzero Hint.
    unfold _generate_network_status_report.
    destruct metrics as [|b rest] eqn:Em; [congruence|]. rewrite <- Em in *.
    rewrite (max_count_all_zero metrics Hzero).
    rewrite (mapM_raises _ nodes (ZeroDivisionError "division by zero")); [reflexivity | |].
    + intros name _. unfold report_line.
      destruct (get_node_data metrics name) as [bc|] eqn:E.
      * right. apply get_node_data_In in E. destruct E as [Hin _].
        destruct (Hint bc Hin) as [c Hc].
        eapply format_report_line_zero_divisor_int. exact Hc.
      * left. eexists. reflexivity.
    + assert (Hb : In b metrics) by (rewrite Em; left; reflexivity).
      exists (node_name b). split; [apply Hdecl; exact Hb|].
      unfold report_line.
      destruct (get_node_data_found metrics b Hb) as [bc' E]. rewrite E.
      apply get_node_data_In in E. destruct E as [Hin _].
      destruct (Hint bc' Hin) as [c Hc].
      eapply format_report_line_zero_divisor_int. exact Hc.
  - intros Hnonneg report Hreport.
    destruct (max_count_attained metrics Hne) as [top [Htop Hmax]].
    destruct (Z.eq_dec (max_count_of metrics) 0) as [Hz | Hnz].
    + exfalso.
      unfold _generate_network_status_report in Hreport.
      destruct metrics as [|b rest] eqn:Em; [congruence|]. rewrite <- Em in *.
      destruct (ResMonad.mapM (report_line metrics (max_count_of metrics)) nodes)
        as [lines| |] eqn:Hm; simpl in Hreport; try discriminate.
      apply mapM_Ret_Forall2 in Hm.
      assert (Hb : In b metrics) by (rewrite Em; left; reflexivity).
      destruct (get_node_data_found metrics b Hb) as [bc' E].
      pose proof (Hdecl b Hb) as Hnode.
      clear - Hm Hz E Hnode.
      induction Hm as [|name line ns ls Hline _ IH]; [destruct Hnode|].
      destruct Hnode as [Heq | Hin]; [|apply IH; exact Hin].
      unfold report_line in Hline. rewrite Heq, E, Hz in Hline.
      destruct (format_report_line_zero_divisor bc') as [[msg Hr] | Hr];
        rewrite Hr in Hline; discriminate.
    + exists top. split; [exact Htop|].
      specialize (Hnonneg top Htop). lia.
Qed.

Lemma zero_block_counts_divide_by_zero_witness :
  [Scenario.metrics "A" 0 "0"] <> []
  /\ (forall bc, In bc [Scenario.metrics "A" 0 "0"] -> In (node_name bc) ["A"])
  /\ _generate_network_status_report ["A"] [Scenario.metrics "A" 0 "0"]
     = Raise (ZeroDivisionError "division by zero").
Proof.
  assert (Hne : [Scenario.metrics "A" 0 "0"] <> []) by discriminate.
  assert (Hdecl : forall bc, In bc [Scenario.metrics "A" 0 "0"] -> In (node_name bc) ["A"]).
  { intros bc [<- | []]. left. reflexivity. }
  split; [exact Hne|]. split; [exact Hdecl|].
  apply (proj1 (zero_block_counts_divide_by_zero ["A"] [Scenario.metrics "A" 0 "0"] Hne Hdecl)).
  - intros bc [<- | []]. reflexivity.
  - intros bc [<- | []]. exists 0. reflexivity.
Defined.

(** ** The status action *)

(** The report of [network_status] on an absent list is made over the
    configured nodes: the summary counts them, and the lines are those of
    [_generate_network_status_report] for them. *)
Lemma network_status_covers_configured_nodes env fuel t report t' :
  network_status env fuel None t = (Ret report, t') ->
  exists online_containers nodes_block_count lines,
    _generate_network_status_report (conf_nodes_name env) nodes_block_count = Ret lines
    /\ report = online_containers_status online_containers
                  (Z.of_nat (List.length (conf_nodes_name env))) ++ lines.
Proof.
  unfold network_status. intros H.
  apply bind_Ret_inv in H. destruct H as [online [t1 [_ H]]].
  apply bind_Ret_inv in H. destruct H as [metrics [t2 [_ H]]].
  apply bind_Ret_inv in H. destruct H as [lines [t3 [Hl H]]].
  unfold Eff.lift in Hl. unfold Eff.ret in H.
  exists online, metrics, lines. split; [congruence | congruence].
Qed.

(** ** Command Dispatcher *)

Lemma status_arguments_filtered env fuel nodes payload :
  _filter_args (network_status_action env fuel)
    [("nodes", ArgNodes nodes); ("payload", ArgPayload payload)] = [].
Proof.
  unfold _filter_args, network_status_action, log_on_success.
  cbn [parameters]. destruct (decorator_keeps_signature env); reflexivity.
Qed.

(** C9.  Whatever [nodes] (and [payload]) the dispatcher is given with the
    [status] command, the filter on the parameter names of the action
    leaves no argument, the action runs as [network_status] without a list
    of nodes, and its report is the one on all configured nodes. *)
Theorem status_ignores_nodes_argument :
  forall env fuel nodes payload t,
    _filter_args (network_status_action env fuel)
      [("nodes", ArgNodes nodes); ("payload", ArgPayload payload)] = []
    /\ execute_command env fuel "status" nodes payload t
       = drop_value (network_status env fuel None t)
    /\ execute_command env fuel "status" nodes payload t
       = execute_command env fuel "status" None None t
    /\ (forall report t',
          network_status env fuel None t = (Ret report, t') ->
          exists online_containers nodes_block_count lines,
            _generate_network_status_report (conf_nodes_name env) nodes_block_count
              = Ret lines
            /\ report = online_containers_status online_containers
                          (Z.of_nat (List.length (conf_nodes_name env))) ++ lines).
Proof.
  intros env fuel nodes payload t.
  assert (E : forall n p, execute_command env fuel "status" n p t
                          = drop_value (network_status env fuel None t)).
  { intros n p. unfold execute_command. cbn [command_mapping mapping_lookup String.eqb Ascii.eqb Bool.eqb].
    unfold Eff.bind at 1. unfold Eff.ret at 1. cbn [fst snd].
    rewrite status_arguments_filtered.
    rewrite bind_drop_value.
    unfold network_status_action, log_on_success, on_nodes. cbn [call kw_nodes kw_lookup].
    unfold Eff.bind, drop_value, Eff.ret.
    destruct (network_status env fuel None t) as [[s| |] t1]; reflexivity. }
  split; [apply status_arguments_filtered|].
  split; [apply E|].
  split; [rewrite !E; reflexivity|].
  intros report t'. apply network_status_covers_configured_nodes.
Qed.

(** In the healthy network, [status] asked for [nl_pr1] alone reports on
    both configured nodes. *)
Lemma status_ignores_nodes_argument_witness :
  execute_command Scenario.healthy 5 "status" (Some ["nl_pr1"]) None []
  = drop_value (network_status Scenario.healthy 5 None [])
  /\ exists t',
       network_status Scenario.healthy 5 None []
       = (Ret ("All 2 containers online" ++ PyStr.newline
               ++ "nl_genesis       Nano V25.0           100.00% synced | 100/100 blocks cemented"
               ++ PyStr.newline
               ++ "nl_pr1           Nano V25.0            40.00% synced | 40/100 blocks cemented"),
          t').
Proof.
  split.
  - apply (status_ignores_nodes_argument Scenario.healthy 5 (Some ["nl_pr1"]) None []).
  - eexists. vm_compute. reflexivity.
Defined.

(** The [status] command runs [network_status] without a list of nodes,
    whatever it is given. *)
Lemma status_runs_network_status env fuel nodes payload t :
  execute_command env fuel "status" nodes payload t
  = drop_value (network_status env fuel None t).
Proof.
  unfold execute_command.
  cbn [command_mapping mapping_lookup String.eqb Ascii.eqb Bool.eqb].
  unfold Eff.bind at 1. unfold Eff.ret at 1. cbn [fst snd].
  rewrite status_arguments_filtered.
  rewrite bind_drop_value.
  unfold network_status_action, log_on_success, on_nodes. cbn [call kw_nodes kw_lookup].
  unfold Eff.bind, drop_value, Eff.ret.
  destruct (network_status env fuel None t) as [[s| |] t1]; reflexivity.
Qed.

(** What [network_status] without a list of nodes returns: the summary of
    the configured containers that are online, followed by the report on
    all configured nodes from the metrics of those containers. *)
Lemma network_status_full_report env fuel t report t' :
  network_status env fuel None t = (Ret report, t') ->
  exists online t1 metrics lines,
    _online_containers env fuel (conf_nodes_name env) t = (Ret online, t1)
    /\ _get_nodes_block_counts env (Some online) t1 = (Ret metrics, t')
    /\ _generate_network_status_report (conf_nodes_name env) metrics = Ret lines
    /\ report = online_containers_status online
                  (Z.of_nat (List.length (conf_nodes_name env))) ++ lines.
Proof.
  unfold network_status. intros H.
  apply bind_Ret_inv in H. destruct H as [online [t1 [Ho H]]].
  apply bind_Ret_inv in H. destruct H as [metrics [t2 [Hm H]]].
  apply bind_Ret_inv in H. destruct H as [lines [t3 [Hl H]]].
  unfold Eff.lift in Hl. unfold Eff.ret in H.
  injection Hl as Hl <-. injection H as <- <-.
  exists online, t1, metrics, lines. repeat split; assumption.
Qed.

(** C8.  The [status] command does the same with a list of nodes that is
    given and empty as with no list: in both cases it runs
    [network_status] on all configured nodes, and what that returns is the
    full report (the summary of the configured containers that are online,
    then one line for each configured node).  The empty selection is
    dropped before it can reach the action. *)
Theorem status_treats_empty_selection_as_absent :
  forall env fuel payload t,
    execute_command env fuel "status" (Some []) payload t
    = execute_command env fuel "status" None payload t
    /\ execute_command env fuel "status" (Some []) payload t
       = drop_value (network_status env fuel None t)
    /\ (forall report t',
          network_status env fuel None t = (Ret report, t') ->
          exists online t1 metrics lines,
            _online_containers env fuel (conf_nodes_name env) t = (Ret online, t1)
            /\ _get_nodes_block_counts env (Some online) t1 = (Ret metrics, t')
            /\ _generate_network_status_report (conf_nodes_name env) metrics = Ret lines
            /\ report = online_containers_status online
                          (Z.of_nat (List.length (conf_nodes_name env))) ++ lines).
Proof.
  intros env fuel payload t.
  split; [rewrite !status_runs_network_status; reflexivity|].
  split; [apply status_runs_network_status|].
  intros report t'. apply network_status_full_report.
Qed.

(** In the healthy network, [status] with the empty list does what
    [status] without a list does, and the report is the one on both
    configured nodes. *)
Lemma status_treats_empty_selection_as_absent_witness :
  execute_command Scenario.healthy 5 "status" (Some []) None []
  = execute_command Scenario.healthy 5 "status" None None []
  /\ execute_command Scenario.healthy 5 "status" (Some []) None []
     = drop_value (network_status Scenario.healthy 5 None [])
  /\ fst (network_status Scenario.healthy 5 None [])
     = Ret ("All 2 containers online" ++ PyStr.newline
            ++ "nl_genesis       Nano V25.0           100.00% synced | 100/100 blocks cemented"
            ++ PyStr.newline
            ++ "nl_pr1           Nano V25.0            40.00% synced | 40/100 blocks cemented").
Proof.
  destruct (status_treats_empty_selection_as_absent Scenario.healthy 5 None [])
    as [H1 [H2 _]].
  split; [exact H1|]. split; [exact H2|].
  vm_compute. reflexivity.
Defined.

Lemma registered_command_lookup env fuel command :
  In command registered_commands ->
  exists action validator,
    mapping_lookup command (command_mapping env fuel) = Some (action, validator).
Proof.
  unfold registered_commands. intros H.
  repeat (destruct H as [<- | H]; [do 2 eexists; reflexivity|]).
  destruct H.
Qed.

(** C1, as amended.  For every registered command, [execute_command] ends
    as the two stages of the dispatch end (validator, then action on the
    arguments it accepts) except for the value: when the action returns,
    whatever it returns, [execute_command] returns [None]; when the
    validator or the action raises, [execute_command] raises the same. *)
Theorem execute_command_drops_action_result :
  forall env fuel command nodes payload t,
    In command registered_commands ->
    exists action validator,
      mapping_lookup command (command_mapping env fuel) = Some (action, validator)
      /\ execute_command env fuel command nodes payload t
         = drop_value (invoke action validator nodes payload t)
      /\ (forall v t', execute_command env fuel command nodes payload t = (Ret v, t') ->
                       v = PyNone).
Proof.
  intros env fuel command nodes payload t Hreg.
  destruct (registered_command_lookup env fuel command Hreg) as [action [validator Hl]].
  exists action, validator.
  assert (E : execute_command env fuel command nodes payload t
              = drop_value (invoke action validator nodes payload t)).
  { unfold execute_command, invoke. rewrite Hl.
    unfold Eff.bind, drop_value, Eff.ret.
    destruct validator as [v|].
    - destruct (call v _ t) as [[validated| |] t1]; reflexivity.
    - reflexivity. }
  split; [exact Hl|]. split; [exact E|].
  intros v t' H. rewrite E in H. eapply drop_value_Ret. exact H.
Qed.

Lemma execute_command_drops_action_result_witness :
  In "rpc" registered_commands
  /\ exists action validator,
      mapping_lookup "rpc" (command_mapping Scenario.healthy 5) = Some (action, validator)
      /\ execute_command Scenario.healthy 5 "rpc" None (Some "{}") []
         = drop_value (invoke action validator None (Some "{}") [])
      /\ (forall v t',
            execute_command Scenario.healthy 5 "rpc" None (Some "{}") [] = (Ret v, t') ->
            v = PyNone).
Proof.
  assert (H : In "rpc" registered_commands) by (vm_compute; tauto).
  split; [exact H|].
  exact (execute_command_drops_action_result Scenario.healthy 5 "rpc" None (Some "{}") [] H).
Defined.

(** C1, as the specification has it: what [execute_command] returns is what
    the action returns.  For [rpc] in the healthy network, [run_rpc]
    returns the text of the responses and [execute_command] returns
    [None]. *)
Lemma execute_command_not_action_result :
  fst (run_rpc Scenario.healthy (Some "{}") None [])
  = Ret (PyStr "[{ok: nl_genesis}, {ok: nl_pr1}]")
  /\ fst (execute_command Scenario.healthy 5 "rpc" None (Some "{}") []) = Ret PyNone
  /\ fst (execute_command Scenario.healthy 5 "rpc" None (Some "{}") [])
     <> fst (run_rpc Scenario.healthy (Some "{}") None []).
Proof. vm_compute. repeat split. discriminate. Qed.

(* ===================================================================== *)
(** * Further properties of the code *)

(** ** Command Dispatcher *)

Lemma mapping_lookup_absent {V} (command : string) (mapping : list (string * V)) :
  ~ In command (map fst mapping) -> mapping_lookup command mapping = None.
Proof.
  induction mapping as [|[k v] rest IH]; intros H; simpl; [reflexivity|].
  destruct (String.eqb_spec k command) as [-> | Hne].
  - exfalso. apply H. left. reflexivity.
  - apply IH. intros Hin. apply H. right. exact Hin.
Qed.

(** X1.  A command that is not registered is refused with
    [ValueError("Invalid command: ...")] before anything is done: no
    process is run, no node is asked. *)
Theorem unregistered_command_is_refused :
  forall env fuel command nodes payload t,
    ~ In command registered_commands ->
    execute_command env fuel command nodes payload t
    = (Raise (ValueError ("Invalid command: " ++ command)), t).
Proof.
  intros env fuel command nodes payload t H.
  unfold execute_command.
  rewrite mapping_lookup_absent; [reflexivity | exact H].
Qed.

Lemma unregistered_command_is_refused_witness :
  ~ In "pause" registered_commands
  /\ execute_command Scenario.healthy 5 "pause" (Some ["nl_pr1"]) None []
     = (Raise (ValueError "Invalid command: pause"), []).
Proof.
  assert (H : ~ In "pause" registered_commands).
  { unfold registered_commands. intros H.
    repeat (destruct H as [H | H]; [discriminate H|]). exact H. }
  split; [exact H|].
  exact (unregistered_command_is_refused Scenario.healthy 5 "pause" (Some ["nl_pr1"]) None [] H).
Defined.

(** X2.  [rpc] without a payload, or with an empty one, is refused by its
    validator before any node is asked, whatever the nodes and whether or
    not the decorator keeps signatures. *)
Theorem rpc_requires_payload :
  forall env fuel nodes t,
    execute_command env fuel "rpc" nodes None t
    = (Raise (ValueError "The --payload argument is required for the 'rpc' command."), t)
    /\ execute_command env fuel "rpc" nodes (Some "") t
       = (Raise (ValueError "The --payload argument is required for the 'rpc' command."), t).
Proof. intros env fuel nodes t. split; reflexivity. Qed.

(** X3.  The payload matters to [rpc] alone: every other registered command
    does the same with and without it. *)
Theorem payload_only_matters_to_rpc :
  forall env fuel command nodes payload t,
    In command registered_commands ->
    command <> "rpc" ->
    execute_command env fuel command nodes payload t
    = execute_command env fuel command nodes None t.
Proof.
  intros env fuel command nodes payload t Hreg Hne.
  unfold registered_commands in Hreg.
  repeat (destruct Hreg as [<- | Hreg];
          [first
             [ congruence
             | unfold execute_command;
               cbn [command_mapping mapping_lookup String.eqb Ascii.eqb Bool.eqb];
               unfold network_status_action;
               unfold _filter_args, log_on_success, on_nodes, no_argument;
               cbn [parameters];
               destruct (decorator_keeps_signature env); reflexivity ]|]).
  destruct Hreg.
Qed.

Lemma payload_only_matters_to_rpc_witness :
  In "start" registered_commands
  /\ "start" <> "rpc"
  /\ execute_command Scenario.healthy 5 "start" (Some ["nl_pr1"]) (Some "{}") []
     = execute_command Scenario.healthy 5 "start" (Some ["nl_pr1"]) None [].
Proof.
  assert (H : In "start" registered_commands) by (vm_compute; tauto).
  assert (Hne : "start" <> "rpc") by discriminate.
  split; [exact H|]. split; [exact Hne|].
  exact (payload_only_matters_to_rpc Scenario.healthy 5 "start" (Some ["nl_pr1"]) (Some "{}") [] H Hne).
Defined.

(** X4.  [create], [init], [remove], [down] and [destroy] take no argument:
    whatever nodes and payload come with them, they act on the whole
    network. *)
Theorem commands_without_arguments_ignore_nodes :
  forall env fuel command nodes payload t,
    In command ["create"; "init"; "remove"; "down"; "destroy"] ->
    execute_command env fuel command nodes payload t
    = execute_command env fuel command None None t.
Proof.
  intros env fuel command nodes payload t Hin.
  repeat (destruct Hin as [<- | Hin];
          [unfold execute_command;
           cbn [command_mapping mapping_lookup String.eqb Ascii.eqb Bool.eqb];
           unfold _filter_args, log_on_success, no_argument;
           cbn [parameters];
           destruct (decorator_keeps_signature env); reflexivity|]).
  destruct Hin.
Qed.

Lemma commands_without_arguments_ignore_nodes_witness :
  In "destroy" ["create"; "init"; "remove"; "down"; "destroy"]
  /\ execute_command Scenario.healthy 5 "destroy" (Some ["nl_pr1"]) None []
     = execute_command Scenario.healthy 5 "destroy" None None [].
Proof.
  assert (H : In "destroy" ["create"; "init"; "remove"; "down"; "destroy"])
    by (vm_compute; tauto).
  split; [exact H|].
  exact (commands_without_arguments_ignore_nodes Scenario.healthy 5 "destroy"
           (Some ["nl_pr1"]) None [] H).
Defined.

(** X5.  For [start], [stop], [restart] and [reset] a list of nodes that is
    given and empty selects the whole network, like no list at all. *)
Theorem empty_selection_means_all_nodes :
  forall env fuel command payload t,
    In command ["start"; "stop"; "restart"; "reset"] ->
    execute_command env fuel command (Some []) payload t
    = execute_command env fuel command None payload t.
Proof.
  intros env fuel command payload t Hin.
  repeat (destruct Hin as [<- | Hin];
          [unfold execute_command;
           cbn [command_mapping mapping_lookup String.eqb Ascii.eqb Bool.eqb];
           unfold _filter_args, log_on_success, on_nodes;
           cbn [parameters];
           destruct (decorator_keeps_signature env); reflexivity|]).
  destruct Hin.
Qed.

Lemma empty_selection_means_all_nodes_witness :
  In "stop" ["start"; "stop"; "restart"; "reset"]
  /\ execute_command Scenario.healthy 5 "stop" (Some []) None []
     = execute_command Scenario.healthy 5 "stop" None None [].
Proof.
  assert (H : In "stop" ["start"; "stop"; "restart"; "reset"]) by (vm_compute; tauto).
  split; [exact H|].
  exact (empty_selection_means_all_nodes Scenario.healthy 5 "stop" None [] H).
Defined.

(** X6.  [_filter_args] hands on exactly the keyword arguments whose names
    are parameters of the function: none that the function does not
    declare, and all those that it declares. *)
Theorem filter_args_keeps_declared_parameters :
  forall (A : Type) (func : Callable A) (kwargs : Kwargs) (kv : string * Arg),
    In kv (_filter_args func kwargs)
    <-> In kv kwargs /\ In (fst kv) (parameters func).
Proof.
  intros A func kwargs kv. unfold _filter_args. rewrite filter_In.
  split; intros [Hin H]; split; try exact Hin.
  - apply existsb_exists in H. destruct H as [p [Hp E]].
    apply String.eqb_eq in E. rewrite E. exact Hp.
  - apply existsb_exists. exists (fst kv). split; [exact H | apply String.eqb_refl].
Qed.

(** X7.  Where the decorator keeps signatures, [start] reaches
    [start_containers] with the nodes it was given, and [rpc] reaches
    [run_rpc] with its payload and nodes; the result of either is dropped. *)
Theorem arguments_reach_the_action :
  forall env fuel nodes payload c rest t,
    decorator_keeps_signature env = true ->
    execute_command env fuel "start" nodes payload t
    = drop_value (start_containers env fuel nodes t)
    /\ execute_command env fuel "rpc" nodes (Some (String c rest)) t
       = drop_value (run_rpc env (Some (String c rest)) nodes t).
Proof.
  intros env fuel nodes payload c rest t H. split.
  - unfold execute_command.
    cbn [command_mapping mapping_lookup String.eqb Ascii.eqb Bool.eqb].
    unfold _filter_args, log_on_success, on_nodes. cbn [parameters]. rewrite H.
    cbn. unfold Eff.bind, Eff.ret, drop_value.
    destruct (start_containers env fuel nodes t) as [[v| |] t']; reflexivity.
  - unfold execute_command.
    cbn [command_mapping mapping_lookup String.eqb Ascii.eqb Bool.eqb].
    unfold _filter_args, run_rpc_action, log_on_success, _rpc_validator_callable.
    cbn [parameters]. rewrite H.
    cbn. unfold Eff.bind, Eff.ret, drop_value.
    destruct (run_rpc env (Some (String c rest)) nodes t) as [[v| |] t']; reflexivity.
Qed.

Lemma arguments_reach_the_action_witness :
  decorator_keeps_signature Scenario.healthy = true
  /\ execute_command Scenario.healthy 5 "start" (Some ["nl_pr1"]) None []
     = drop_value (start_containers Scenario.healthy 5 (Some ["nl_pr1"]) [])
  /\ execute_command Scenario.healthy 5 "rpc" (Some ["nl_pr1"]) (Some "{}") []
     = drop_value (run_rpc Scenario.healthy (Some "{}") (Some ["nl_pr1"]) []).
Proof.
  split; [reflexivity|].
  exact (arguments_reach_the_action Scenario.healthy 5 (Some ["nl_pr1"]) None
           "{"%char "}" [] eq_refl).
Defined.

(** ** Process Executor and Auto-Healer *)

Lemma executor_on_success env fuel cmd shell cwd increment t result :
  subprocess_run env t cmd shell cwd = inl result ->
  _subprocess_capture_raise env (S fuel) cmd shell cwd increment t
  = (Ret result, (t ++ [EvRun cmd shell cwd])%list).
Proof.
  intros H. cbn [_subprocess_capture_raise].
  unfold Eff.bind, Eff.perform. rewrite H. reflexivity.
Qed.

Lemma executor_on_failure env fuel cmd shell cwd increment t e :
  subprocess_run env t cmd shell cwd = inr e ->
  _subprocess_capture_raise env (S fuel) cmd shell cwd increment t
  = auto_heal (_subprocess_capture_raise env fuel) e shell cwd increment
      (t ++ [EvRun cmd shell cwd])%list.
Proof.
  intros H. cbn [_subprocess_capture_raise].
  unfold Eff.bind, Eff.perform. rewrite H. reflexivity.
Qed.

(** X8.  At the ceiling the executor gives up at once: a command that fails
    with a retry count of ten or more is run once and its failure is raised
    as it is, even when its text is one that a heal rule knows. *)
Theorem executor_gives_up_at_the_ceiling :
  forall env fuel cmd shell cwd increment t e,
    10 <= increment ->
    subprocess_run env t cmd shell cwd = inr e ->
    _subprocess_capture_raise env (S fuel) cmd shell cwd increment t
    = (Raise (CalledProcessError e), (t ++ [EvRun cmd shell cwd])%list).
Proof.
  intros env fuel cmd shell cwd increment t e Hinc Hrun.
  rewrite (executor_on_failure _ _ _ _ _ _ _ _ Hrun).
  apply auto_heal_ceiling. exact Hinc.
Qed.

Lemma executor_gives_up_at_the_ceiling_witness :
  10 <= 10
  /\ subprocess_run Scenario.port_conflict [] Scenario.compose_up false None
     = inr (Scenario.failure Scenario.compose_up Scenario.port_taken)
  /\ _subprocess_capture_raise Scenario.port_conflict 1 Scenario.compose_up false None 10 []
     = (Raise (CalledProcessError (Scenario.failure Scenario.compose_up Scenario.port_taken)),
        [EvRun Scenario.compose_up false None]).
Proof.
  assert (H : 10 <= 10) by lia.
  split; [exact H|]. split; [reflexivity|].
  exact (executor_gives_up_at_the_ceiling Scenario.port_conflict 0 Scenario.compose_up
           false None 10 [] _ H eq_refl).
Defined.

Lemma prefix_of_append (a b : string) : prefix a (a ++ b) = true.
Proof.
  induction a as [|c a IH]; simpl.
  - destruct b; reflexivity.
  - destruct (ascii_dec c c) as [_ | Hne]; [exact IH | congruence].
Qed.

Lemma prefix_of_prefix (a b s : string) :
  prefix (a ++ b) s = true -> prefix a s = true.
Proof.
  revert s. induction a as [|c a IH]; intros s H.
  - destruct s; reflexivity.
  - destruct s as [|d s]; simpl in *; [discriminate H|].
    destruct (ascii_dec c d); [apply IH; exact H | discriminate H].
Qed.

Lemma stop_line_is_remediation (rest : string) :
  is_remediation (CmdStr ("docker stop -t 0 " ++ rest)) = true.
Proof. apply prefix_of_append. Qed.

(** X9.  Where docker carries out the remediation commands, the recursion
    between the executor and the healer ends: from a retry count
    [increment] a depth of [11 - increment] is enough for an answer, a
    result or an exception, whatever the commands do otherwise. *)
Theorem recursion_ends_when_remediation_succeeds :
  forall env,
    remediation_succeeds env ->
    forall fuel cmd shell cwd increment t,
      (1 <= fuel)%nat ->
      11 - increment <= Z.of_nat fuel ->
      fst (_subprocess_capture_raise env fuel cmd shell cwd increment t) <> Diverge.
Proof.
  intros env Hrem fuel.
  induction fuel as [|f IH]; intros cmd shell cwd increment t Hpos Hfuel; [lia|].
  destruct (subprocess_run env t cmd shell cwd) as [result | e] eqn:Hrun.
  - rewrite (executor_on_success _ _ _ _ _ _ _ _ Hrun). discriminate.
  - rewrite (executor_on_failure _ _ _ _ _ _ _ _ Hrun).
    unfold auto_heal. destruct (Z.leb_spec 10 increment) as [Hc | Hc]; [discriminate|].
    assert (Hf : (1 <= f)%nat) by lia.
    assert (Hnext : 11 - (increment + 1) <= Z.of_nat f) by lia.
    destruct f as [|f']; [lia|].
    unfold healable_errors. cbn [heal_loop].
    destruct (PyStr.contains HealPattern.address_in_use_msg (e_stderr e)); cbn [negb].
    + unfold _heal_address_in_use.
      destruct (HealPattern.search_word HealPattern.address_in_use_msg (e_stderr e))
        as [name|]; [|discriminate].
      unfold Eff.bind at 1. unfold Eff.bind at 1.
      match goal with
      | |- context [_subprocess_capture_raise env (S f') (CmdStr ?s) true None 0 ?t1] =>
          destruct (Hrem t1 (CmdStr s) true None (stop_line_is_remediation _)) as [r Hr];
          rewrite (executor_on_success _ _ _ _ _ _ _ _ Hr)
      end.
      unfold Eff.ret at 1. apply IH; assumption.
    + destruct (PyStr.contains HealPattern.docker_in_use_msg (e_stderr e)); cbn [negb];
        [|discriminate].
      unfold _heal_docker_in_use.
      destruct (HealPattern.search_quoted HealPattern.docker_in_use_msg (e_stderr e))
        as [name|].
      * unfold Eff.bind at 1. unfold Eff.bind at 1.
        match goal with
        | |- context [_subprocess_capture_raise env (S f') (CmdStr ?s) true None 0 ?t1] =>
            destruct (Hrem t1 (CmdStr s) true None (stop_line_is_remediation _)) as [r Hr];
            rewrite (executor_on_success _ _ _ _ _ _ _ _ Hr)
        end.
        unfold Eff.ret at 1. apply IH; assumption.
      * discriminate.
Qed.

Lemma recursion_ends_when_remediation_succeeds_witness :
  remediation_succeeds Scenario.stubborn_conflict
  /\ (1 <= 11)%nat
  /\ 11 - 0 <= Z.of_nat 11
  /\ fst (_subprocess_capture_raise Scenario.stubborn_conflict 11
            Scenario.compose_up false None 0 []) <> Diverge.
Proof.
  assert (H : remediation_succeeds Scenario.stubborn_conflict).
  { intros t cmd shell cwd Hc. destruct cmd as [s | argv]; [|discriminate Hc].
    cbn [Scenario.stubborn_conflict Scenario.with_subprocess subprocess_run
         Scenario.is_docker_stop].
    assert (Hp : prefix "docker stop" s = true).
    { apply (prefix_of_prefix "docker stop" " -t 0 "). exact Hc. }
    rewrite Hp. eexists. reflexivity. }
  assert (H1 : (1 <= 11)%nat) by lia.
  assert (H2 : 11 - 0 <= Z.of_nat 11) by lia.
  split; [exact H|]. split; [exact H1|]. split; [exact H2|].
  exact (recursion_ends_when_remediation_succeeds Scenario.stubborn_conflict H 11
           Scenario.compose_up false None 0 [] H1 H2).
Defined.

(** X10.  When the text of a failure holds the address-in-use message but
    no container name after it, the healer raises [AttributeError] (the
    search has found nothing to take the name from): the failure itself is
    not raised, the second rule is not tried and no command is run. *)
Theorem address_rule_without_name_raises_attribute_error :
  forall exec error cmd_shell cmd_cwd increment t,
    increment < 10 ->
    PyStr.contains HealPattern.address_in_use_msg (e_stderr error) = true ->
    HealPattern.search_word HealPattern.address_in_use_msg (e_stderr error) = None ->
    auto_heal exec error cmd_shell cmd_cwd increment t
    = (Raise (AttributeError "'NoneType' object has no attribute 'group'"), t).
Proof.
  intros exec error cmd_shell cmd_cwd increment t Hinc Hc Hs.
  unfold auto_heal. destruct (Z.leb_spec 10 increment); [lia|].
  unfold healable_errors. cbn [heal_loop]. rewrite Hc. cbn [negb].
  unfold _heal_address_in_use. rewrite Hs. reflexivity.
Qed.

Lemma address_rule_without_name_raises_attribute_error_witness :
  0 < 10
  /\ PyStr.contains HealPattern.address_in_use_msg
       (e_stderr (Scenario.failure Scenario.compose_up
                    "driver failed programming external connectivity on endpoint"))
     = true
  /\ auto_heal (_subprocess_capture_raise Scenario.healthy 3)
       (Scenario.failure Scenario.compose_up
          "driver failed programming external connectivity on endpoint")
       false None 0 []
     = (Raise (AttributeError "'NoneType' object has no attribute 'group'"), []).
Proof.
  assert (H : 0 < 10) by lia.
  split; [exact H|]. split; [vm_compute; reflexivity|].
  apply (address_rule_without_name_raises_attribute_error
           (_subprocess_capture_raise Scenario.healthy 3)
           (Scenario.failure Scenario.compose_up
              "driver failed programming external connectivity on endpoint")
           false None 0 [] H); vm_compute; reflexivity.
Defined.

(** X11.  When the text holds the container-name conflict message (and not
    the address-in-use one) but no quoted name after it, the rule declines,
    no command is run and the healer raises [ValueError] with the text. *)
Theorem docker_rule_without_name_raises_value_error :
  forall exec error cmd_shell cmd_cwd increment t,
    increment < 10 ->
    PyStr.contains HealPattern.address_in_use_msg (e_stderr error) = false ->
    PyStr.contains HealPattern.docker_in_use_msg (e_stderr error) = true ->
    HealPattern.search_quoted HealPattern.docker_in_use_msg (e_stderr error) = None ->
    auto_heal exec error cmd_shell cmd_cwd increment t
    = (Raise (ValueError (e_stderr error)), t).
Proof.
  intros exec error cmd_shell cmd_cwd increment t Hinc Ha Hc Hs.
  unfold auto_heal. destruct (Z.leb_spec 10 increment); [lia|].
  unfold healable_errors. cbn [heal_loop]. rewrite Ha, Hc. cbn [negb].
  unfold _heal_docker_in_use. rewrite Hs. reflexivity.
Qed.

Lemma docker_rule_without_name_raises_value_error_witness :
  0 < 10
  /\ auto_heal (_subprocess_capture_raise Scenario.healthy 3)
       (Scenario.failure Scenario.compose_up
          "Error response from daemon: Conflict. The container name is taken")
       false None 0 []
     = (Raise (ValueError "Error response from daemon: Conflict. The container name is taken"),
        []).
Proof.
  assert (H : 0 < 10) by lia.
  split; [exact H|].
  apply (docker_rule_without_name_raises_value_error
           (_subprocess_capture_raise Scenario.healthy 3)
           (Scenario.failure Scenario.compose_up
              "Error response from daemon: Conflict. The container name is taken")
           false None 0 [] H); vm_compute; reflexivity.
Defined.

Lemma take_while_all (f : ascii -> bool) (s : string) :
  Forall (fun c => f c = true) (chars (HealPattern.take_while f s)).
Proof.
  induction s as [|c s IH]; simpl; [constructor|].
  destruct (f c) eqn:E; simpl; [constructor; assumption | constructor].
Qed.

(** X12.  The container name that the address-in-use rule takes from the
    text is never empty and is made of letters, digits and underscores
    only: the command line built from it holds nothing else from the
    text. *)
Theorem address_rule_name_is_a_word :
  forall msg stderr name,
    HealPattern.search_word msg stderr = Some name ->
    name <> "" /\ Forall (fun c => PyStr.is_word c = true) (chars name).
Proof.
  intros msg stderr name.
  induction stderr as [|c rest IH]; cbn [HealPattern.search_word].
  - destruct (HealPattern.word_at msg "") as [w|] eqn:E; [|discriminate].
    intros H. injection H as <-. revert E. unfold HealPattern.word_at.
    destruct (HealPattern.match_head (msg ++ " ") "") as [r|]; [|discriminate].
    pose proof (take_while_all PyStr.is_word r) as Hall.
    destruct (HealPattern.take_while PyStr.is_word r) as [|a w']; [discriminate|].
    intros H. injection H as <-. split; [discriminate | exact Hall].
  - destruct (HealPattern.word_at msg (String c rest)) as [w|] eqn:E; [|exact IH].
    intros H. injection H as <-. revert E. unfold HealPattern.word_at.
    destruct (HealPattern.match_head (msg ++ " ") (String c rest)) as [r|]; [|discriminate].
    pose proof (take_while_all PyStr.is_word r) as Hall.
    destruct (HealPattern.take_while PyStr.is_word r) as [|a w']; [discriminate|].
    intros H. injection H as <-. split; [discriminate | exact Hall].
Qed.

Lemma address_rule_name_is_a_word_witness :
  HealPattern.search_word HealPattern.address_in_use_msg Scenario.port_taken = Some "nl_pr1"
  /\ "nl_pr1" <> ""
  /\ Forall (fun c => PyStr.is_word c = true) (chars "nl_pr1").
Proof.
  assert (H : HealPattern.search_word HealPattern.address_in_use_msg Scenario.port_taken
              = Some "nl_pr1") by (vm_compute; reflexivity).
  split; [exact H|].
  exact (address_rule_name_is_a_word HealPattern.address_in_use_msg Scenario.port_taken
           "nl_pr1" H).
Defined.

(** X13.  The container name that the container-conflict rule takes from
    the text is never empty and holds no double quote; any other character
    of the text, a space or a semicolon for instance, can be part of it. *)
Theorem docker_rule_name_has_no_quote :
  forall msg stderr name,
    HealPattern.search_quoted msg stderr = Some name ->
    name <> "" /\ Forall (fun c => HealPattern.not_dquote c = true) (chars name).
Proof.
  intros msg stderr name.
  assert (Hat : forall s, HealPattern.quoted_at msg s = Some name ->
                          name <> "" /\ Forall (fun c => HealPattern.not_dquote c = true)
                                          (chars name)).
  { intros s. unfold HealPattern.quoted_at.
    destruct (HealPattern.match_head _ s) as [r|]; [|discriminate].
    pose proof (take_while_all HealPattern.not_dquote r) as Hall.
    destruct (HealPattern.take_while HealPattern.not_dquote r) as [|a w']; [discriminate|].
    destruct (HealPattern.drop_while HealPattern.not_dquote r); [discriminate|].
    intros H. injection H as <-. split; [discriminate | exact Hall]. }
  induction stderr as [|c rest IH]; cbn [HealPattern.search_quoted].
  - destruct (HealPattern.quoted_at msg "") as [w|] eqn:E; [|discriminate].
    intros H. injection H as <-. apply (Hat _ E).
  - destruct (HealPattern.quoted_at msg (String c rest)) as [w|] eqn:E; [|exact IH].
    intros H. injection H as <-. apply (Hat _ E).
Qed.

Lemma docker_rule_name_has_no_quote_witness :
  HealPattern.search_quoted HealPattern.docker_in_use_msg
    ("Error response from daemon: Conflict. The container name "
       ++ PyStr.dquote ++ "/nl_pr1; id" ++ PyStr.dquote ++ " is already in use")
  = Some "nl_pr1; id"
  /\ "nl_pr1; id" <> ""
  /\ Forall (fun c => HealPattern.not_dquote c = true) (chars "nl_pr1; id").
Proof.
  assert (H : HealPattern.search_quoted HealPattern.docker_in_use_msg
                ("Error response from daemon: Conflict. The container name "
                   ++ PyStr.dquote ++ "/nl_pr1; id" ++ PyStr.dquote ++ " is already in use")
              = Some "nl_pr1; id") by (vm_compute; reflexivity).
  split; [exact H|].
  exact (docker_rule_name_has_no_quote _ _ _ H).
Defined.

(** X14.  One cycle of the address-in-use rule: the container named in the
    text is stopped and started again by one shell command, run with a
    retry count of zero.  If that command returns, the command that failed
    is run again with the shell setting and directory it had and a retry
    count one higher; if it raises, that exception is the outcome and the
    failure that started the cycle is lost. *)
Theorem address_rule_cycle :
  forall (exec : Exec) error cmd_shell cmd_cwd increment t name,
    increment < 10 ->
    PyStr.contains HealPattern.address_in_use_msg (e_stderr error) = true ->
    HealPattern.search_word HealPattern.address_in_use_msg (e_stderr error) = Some name ->
    (forall result t1,
        exec (CmdStr ("docker stop -t 0 " ++ name ++ " && sleep 5 && docker start " ++ name))
             true None 0 t = (Ret result, t1) ->
        auto_heal exec error cmd_shell cmd_cwd increment t
        = exec (e_cmd error) cmd_shell cmd_cwd (increment + 1) t1)
    /\ (forall x t1,
          exec (CmdStr ("docker stop -t 0 " ++ name ++ " && sleep 5 && docker start " ++ name))
               true None 0 t = (Raise x, t1) ->
          auto_heal exec error cmd_shell cmd_cwd increment t = (Raise x, t1)).
Proof.
  intros exec error cmd_shell cmd_cwd increment t name Hinc Hc Hs.
  assert (E : auto_heal exec error cmd_shell cmd_cwd increment t
              = (healed <- (exec (CmdStr ("docker stop -t 0 " ++ name
                                          ++ " && sleep 5 && docker start " ++ name))
                                 true None 0 ;;; Eff.ret true) ;;
                 if healed : bool
                 then exec (e_cmd error) cmd_shell cmd_cwd (increment + 1)
                 else heal_loop exec [("docker_in_use",
                                       (HealPattern.docker_in_use_msg,
                                        _heal_docker_in_use exec))]
                        error cmd_shell cmd_cwd increment) t).
  { unfold auto_heal. destruct (Z.leb_spec 10 increment); [lia|].
    unfold healable_errors. cbn [heal_loop]. rewrite Hc. cbn [negb].
    unfold _heal_address_in_use. rewrite Hs. reflexivity. }
  split; intros r t1 H; rewrite E; unfold Eff.bind; rewrite H; reflexivity.
Qed.

Lemma address_rule_cycle_witness :
  0 < 10
  /\ auto_heal (_subprocess_capture_raise Scenario.stubborn_conflict 2)
       (Scenario.failure Scenario.compose_up Scenario.port_taken) false None 0 []
     = _subprocess_capture_raise Scenario.stubborn_conflict 2
         Scenario.compose_up false None (0 + 1)
         [EvRun Scenario.restart_nl_pr1 true None].
Proof.
  assert (H : 0 < 10) by lia.
  split; [exact H|].
  apply (proj1 (address_rule_cycle
                  (_subprocess_capture_raise Scenario.stubborn_conflict 2)
                  (Scenario.failure Scenario.compose_up Scenario.port_taken)
                  false None 0 [] "nl_pr1" H port_taken_is_known port_taken_names_container)
           {| cp_args := Scenario.restart_nl_pr1; cp_stdout := ""; cp_stderr := "" |}).
  vm_compute. reflexivity.
Defined.

(** ** Readiness Poller *)

Lemma probes_app (a b : Trace) : probes (a ++ b)%list = (probes a ++ probes b)%list.
Proof.
  induction a as [|ev a IH]; simpl; [reflexivity|].
  destruct ev; simpl; rewrite IH; reflexivity.
Qed.

Lemma probes_of_round (nodes : list string) : probes (map EvProbe nodes) = nodes.
Proof. induction nodes as [|n l IH]; simpl; [reflexivity | rewrite IH; reflexivity]. Qed.

(** A probe answers for its own node, or raises what the lookup of the
    node's address raises. *)
Lemma probe_outcome env t c timeout :
  match _is_rpc_available env t c timeout with
  | Ret result => fst result = c
  | Raise e => get_node_rpc env c = Raise e
  | Diverge => True
  end.
Proof.
  unfold _is_rpc_available.
  destruct (get_node_rpc env c) as [url| |]; cbn [ResMonad.bind]; try reflexivity.
  destruct (rpc_probe env t c) as [[|]| |]; reflexivity.
Qed.

Lemma round_outcome env t timeout nodes :
  match ResMonad.mapM (fun c => _is_rpc_available env t c timeout) nodes with
  | Ret results => map fst results = nodes
  | Raise e => exists n, In n nodes /\ get_node_rpc env n = Raise e
  | Diverge => True
  end.
Proof.
  induction nodes as [|n l IH]; cbn [ResMonad.mapM]; [reflexivity|].
  pose proof (probe_outcome env t n timeout) as Hn.
  destruct (_is_rpc_available env t n timeout) as [r| |]; cbn [ResMonad.bind].
  - destruct (ResMonad.mapM (fun c => _is_rpc_available env t c timeout) l) as [rs| |];
      cbn [ResMonad.bind].
    + cbn [map]. rewrite Hn, IH. reflexivity.
    + destruct IH as [m [Hm He]]. exists m. split; [right; exact Hm | exact He].
    + exact I.
  - exists n. split; [left; reflexivity | exact Hn].
  - exact I.
Qed.

(** A round leaves pending some of the nodes it has probed, or raises what
    the lookup of the address of one of them raises. *)
Lemma unavailable_nodes_outcome env nodes timeout t :
  snd (get_unavailable_nodes env nodes timeout t) = (t ++ map EvProbe nodes)%list
  /\ match fst (get_unavailable_nodes env nodes timeout t) with
     | Ret still => incl still nodes
     | Raise e => exists n, In n nodes /\ get_node_rpc env n = Raise e
     | Diverge => True
     end.
Proof.
  unfold get_unavailable_nodes. cbn [fst snd]. split; [reflexivity|].
  pose proof (round_outcome env t timeout nodes) as H.
  destruct (ResMonad.mapM (fun c => _is_rpc_available env t c timeout) nodes) as [rs| |];
    cbn [ResMonad.bind]; try exact H.
  rewrite <- H. intros x Hx. apply in_map_iff in Hx. destruct Hx as [r [<- Hr]].
  apply filter_In in Hr. apply in_map. apply Hr.
Qed.

(** One round of the poller that waits. *)
Lemma poll_round_step env f timeout max_timeout_s start_time n l t :
  poll_rounds env (S f) true timeout max_timeout_s start_time (n :: l) t
  = match fst (get_unavailable_nodes env (n :: l) timeout t) with
    | Ret still =>
        if deadline_passed start_time
             (time_time env (t ++ map EvProbe (n :: l))%list) max_timeout_s
        then (Raise (ValueError ("TIMEOUT: RPCs not reachable for nodes "
                                 ++ PyStr.str_list still)),
              ((t ++ map EvProbe (n :: l)) ++ [EvClock])%list)
        else poll_rounds env f true timeout max_timeout_s start_time still
               ((t ++ map EvProbe (n :: l))
                  ++ [EvClock] ++ match still with [] => [] | _ :: _ => [EvSleep 1] end)%list
    | Raise e => (Raise e, (t ++ map EvProbe (n :: l))%list)
    | Diverge => (Diverge, (t ++ map EvProbe (n :: l))%list)
    end.
Proof.
  cbn [poll_rounds negb].
  unfold Eff.bind at 1. unfold get_unavailable_nodes. cbn [fst].
  destruct (ResMonad.mapM (fun c => _is_rpc_available env t c timeout) (n :: l))
    as [rs| |]; cbn [ResMonad.bind]; try reflexivity.
  unfold Eff.bind at 1. unfold Eff.perform at 1.
  destruct (deadline_passed start_time
              (time_time env (t ++ map EvProbe (n :: l))%list) max_timeout_s);
    [reflexivity|].
  unfold Eff.bind.
  destruct (map fst (filter (fun result => negb (snd result)) rs));
    unfold Eff.ret, Eff.perform; rewrite <- ?app_assoc; reflexivity.
Qed.

Lemma poll_rounds_shape env fuel wait timeout max_timeout_s start_time nodes t :
  exists ext,
    snd (poll_rounds env fuel wait timeout max_timeout_s start_time nodes t) = (t ++ ext)%list
    /\ incl (probes ext) nodes
    /\ match fst (poll_rounds env fuel wait timeout max_timeout_s start_time nodes t) with
       | Raise e =>
           (exists still,
               e = ValueError ("TIMEOUT: RPCs not reachable for nodes "
                               ++ PyStr.str_list still)
               /\ incl still nodes)
           \/ (exists n, In n nodes /\ get_node_rpc env n = Raise e)
       | _ => True
       end.
Proof.
  assert (Hidle : forall nodes t (outcome : res unit * Trace),
             outcome = (Ret tt, t) \/ outcome = (Diverge, t) ->
             exists ext,
               snd outcome = (t ++ ext)%list
               /\ incl (probes ext) nodes
               /\ match fst outcome with
                  | Raise e =>
                      (exists still,
                          e = ValueError ("TIMEOUT: RPCs not reachable for nodes "
                                          ++ PyStr.str_list still)
                          /\ incl still nodes)
                      \/ (exists n, In n nodes /\ get_node_rpc env n = Raise e)
                  | _ => True
                  end).
  { intros ns t0 outcome [-> | ->]; exists []; rewrite app_nil_r; simpl;
      (split; [reflexivity | split; [apply incl_nil_l | exact I]]). }
  revert nodes t. induction fuel as [|f IH]; intros nodes t.
  - apply Hidle. destruct nodes as [|n l]; destruct wait; simpl; auto.
  - destruct nodes as [|n l]; [apply Hidle; left; reflexivity|].
    destruct wait; [|apply Hidle; left; reflexivity].
    rewrite poll_round_step.
    destruct (unavailable_nodes_outcome env (n :: l) timeout t) as [_ Hround].
    set (t1 := (t ++ map EvProbe (n :: l))%list).
    assert (Hprobed : incl (probes (map EvProbe (n :: l))) (n :: l)).
    { rewrite probes_of_round. apply incl_refl. }
    destruct (fst (get_unavailable_nodes env (n :: l) timeout t)) as [still|e|].
    + destruct (deadline_passed start_time (time_time env t1) max_timeout_s).
      * exists (map EvProbe (n :: l) ++ [EvClock])%list.
        cbn [fst snd]. split; [subst t1; reflexivity || (rewrite app_assoc; reflexivity)|].
        split.
        -- rewrite probes_app. simpl (probes [EvClock]). rewrite app_nil_r. exact Hprobed.
        -- left. exists still. split; [reflexivity | exact Hround].
      * set (pause := match still with [] => [] | _ :: _ => [EvSleep 1] end).
        assert (Hpp : probes pause = []) by (subst pause; destruct still; reflexivity).
        destruct (IH still (t1 ++ [EvClock] ++ pause)%list) as [ext [Hsnd [Hprobes Hfst]]].
        exists (map EvProbe (n :: l) ++ [EvClock] ++ pause ++ ext)%list.
        split; [rewrite Hsnd; subst t1; rewrite <- !app_assoc; reflexivity|].
        split.
        -- rewrite !probes_app, Hpp. simpl (probes [EvClock]). cbn [app].
           apply incl_app; [exact Hprobed|].
           intros x Hx. apply Hround. apply Hprobes. exact Hx.
        -- destruct (fst (poll_rounds env f true timeout max_timeout_s start_time still
                            (t1 ++ [EvClock] ++ pause)%list)); try exact I.
           destruct Hfst as [[s [He Hs]] | [m [Hm He]]].
           ++ left. exists s. split; [exact He|].
              intros x Hx. apply Hround. apply Hs. exact Hx.
           ++ right. exists m. split; [apply Hround; exact Hm | exact He].
    + exists (map EvProbe (n :: l)). cbn [fst snd].
      split; [reflexivity|]. split; [exact Hprobed|]. right. exact Hround.
    + exists (map EvProbe (n :: l)). cbn [fst snd].
      split; [reflexivity|]. split; [exact Hprobed | exact I].
Qed.

(** The nodes that [_wait_for_rpc_availability] waits for: those given, or
    all configured nodes when none or an empty list is given. *)
Lemma waited_nodes env fuel nodes_name wait timeout max_timeout_s t :
  _wait_for_rpc_availability env fuel nodes_name wait timeout max_timeout_s t
  = poll_rounds env fuel wait timeout max_timeout_s (time_time env t)
      match nodes_name with
      | Some (n :: l) => n :: l
      | _ => conf_nodes_name env
      end (t ++ [EvClock])%list.
Proof. reflexivity. Qed.

(** X15.  The poller raises its timeout or what the lookup of the address
    of a waited node raises, and nothing else: the nodes that the timeout
    names are among those it was asked to wait for (all configured nodes
    when none is given), and an exception other than the timeout is the one
    that [conf_p.get_node_rpc] raises for one of those nodes. *)
Theorem timeout_names_waited_nodes :
  forall env fuel nodes_name wait timeout max_timeout_s t,
    match fst (_wait_for_rpc_availability env fuel nodes_name wait timeout max_timeout_s t)
    with
    | Raise e =>
        (exists still,
            e = ValueError ("TIMEOUT: RPCs not reachable for nodes " ++ PyStr.str_list still)
            /\ incl still match nodes_name with
                          | Some (n :: l) => n :: l
                          | _ => conf_nodes_name env
                          end)
        \/ (exists node,
              In node match nodes_name with
                      | Some (n :: l) => n :: l
                      | _ => conf_nodes_name env
                      end
              /\ get_node_rpc env node = Raise e)
    | _ => True
    end.
Proof.
  intros env fuel nodes_name wait timeout max_timeout_s t. rewrite waited_nodes.
  destruct (poll_rounds_shape env fuel wait timeout max_timeout_s (time_time env t)
              match nodes_name with
              | Some (n :: l) => n :: l
              | _ => conf_nodes_name env
              end (t ++ [EvClock])%list) as [ext [_ [_ H]]].
  exact H.
Qed.

(** X16.  The poller only adds to the trace, and every probe it makes is of
    a node it was asked to wait for: no other node is contacted, however
    many rounds are made. *)
Theorem poller_probes_waited_nodes_only :
  forall env fuel nodes_name wait timeout max_timeout_s t,
    exists ext,
      snd (_wait_for_rpc_availability env fuel nodes_name wait timeout max_timeout_s t)
      = (t ++ ext)%list
      /\ incl (probes ext) match nodes_name with
                           | Some (n :: l) => n :: l
                           | _ => conf_nodes_name env
                           end.
Proof.
  intros env fuel nodes_name wait timeout max_timeout_s t. rewrite waited_nodes.
  destruct (poll_rounds_shape env fuel wait timeout max_timeout_s (time_time env t)
              match nodes_name with
              | Some (n :: l) => n :: l
              | _ => conf_nodes_name env
              end (t ++ [EvClock])%list) as [ext [Hsnd [Hprobes _]]].
  exists ([EvClock] ++ ext)%list. split.
  - rewrite Hsnd, <- app_assoc. reflexivity.
  - rewrite probes_app. exact Hprobes.
Qed.

(** X17.  When every waited node answers the first probe and the round ends
    within the deadline, the poller returns after that round: the clock is
    read twice, each node is probed once, in order, and nothing is slept. *)
Theorem all_nodes_ready_in_first_round :
  forall env fuel node rest timeout max_timeout_s t,
    (forall n, In n (node :: rest) ->
               _is_rpc_available env (t ++ [EvClock])%list n timeout = Ret (n, true)) ->
    deadline_passed (time_time env t)
      (time_time env ((t ++ [EvClock]) ++ map EvProbe (node :: rest))%list)
      max_timeout_s = false ->
    _wait_for_rpc_availability env (S fuel) (Some (node :: rest)) true timeout max_timeout_s t
    = (Ret tt, (((t ++ [EvClock]) ++ map EvProbe (node :: rest)) ++ [EvClock])%list).
Proof.
  intros env fuel node rest timeout max_timeout_s t Hup Hdl.
  rewrite waited_nodes. cbv beta iota.
  rewrite poll_round_step.
  assert (Hnone : fst (get_unavailable_nodes env (node :: rest) timeout (t ++ [EvClock])%list)
                  = Ret []).
  { unfold get_unavailable_nodes. cbn [fst].
    assert (G : forall l,
               (forall n, In n l ->
                          _is_rpc_available env (t ++ [EvClock])%list n timeout = Ret (n, true)) ->
               ResMonad.mapM (fun c => _is_rpc_available env (t ++ [EvClock])%list c timeout) l
               = Ret (map (fun n => (n, true)) l)).
    { induction l as [|a l IH]; intros H; cbn [ResMonad.mapM map]; [reflexivity|].
      rewrite (H a (or_introl eq_refl)). cbn [ResMonad.bind].
      rewrite IH; [reflexivity|]. intros n Hn. apply H. right. exact Hn. }
    rewrite (G _ Hup). cbn [ResMonad.bind]. f_equal.
    generalize (node :: rest). intros l. induction l as [|a l IH]; [reflexivity | exact IH]. }
  rewrite Hnone, Hdl. rewrite app_nil_r.
  destruct fuel; reflexivity.
Qed.

Lemma all_nodes_ready_in_first_round_witness :
  (forall n, In n ["nl_genesis"; "nl_pr1"] ->
             _is_rpc_available Scenario.healthy [EvClock] n 10 = Ret (n, true))
  /\ _wait_for_rpc_availability Scenario.healthy 1 (Some ["nl_genesis"; "nl_pr1"]) true 10 15 []
     = (Ret tt, [EvClock; EvProbe "nl_genesis"; EvProbe "nl_pr1"; EvClock]).
Proof.
  assert (H : forall n, In n ["nl_genesis"; "nl_pr1"] ->
                        _is_rpc_available Scenario.healthy [EvClock] n 10 = Ret (n, true))
    by (intros n _; reflexivity).
  split; [exact H|].
  apply (all_nodes_ready_in_first_round Scenario.healthy 0 "nl_genesis" ["nl_pr1"] 10 15 [] H).
  vm_compute. reflexivity.
Defined.

(** ** Status Aggregator *)

(** X18.  [max_count] is the largest block count among the metrics: no
    entry has more, and one entry has exactly that many. *)
Theorem max_count_is_the_largest_count :
  forall metrics,
    metrics <> [] ->
    (forall bc, In bc metrics -> count bc <= max_count_of metrics)
    /\ exists bc, In bc metrics /\ count bc = max_count_of metrics.
Proof.
  intros metrics Hne. split; [|apply max_count_attained; exact Hne].
  destruct metrics as [|b rest]; [congruence|]. cbn [max_count_of].
  destruct (fold_max_ge (map count rest) (count b)) as [Hb Hrest].
  intros bc [<- | Hin]; [exact Hb|].
  apply Hrest. apply in_map. exact Hin.
Qed.

Lemma max_count_is_the_largest_count_witness :
  [Scenario.metrics "A" 7 "7"; Scenario.metrics "B" 12 "3"; Scenario.metrics "C" 9 "9"] <> []
  /\ (forall bc,
        In bc [Scenario.metrics "A" 7 "7"; Scenario.metrics "B" 12 "3";
               Scenario.metrics "C" 9 "9"] ->
        count bc <= 12)
  /\ exists bc,
       In bc [Scenario.metrics "A" 7 "7"; Scenario.metrics "B" 12 "3";
              Scenario.metrics "C" 9 "9"]
       /\ count bc = 12.
Proof.
  assert (H : [Scenario.metrics "A" 7 "7"; Scenario.metrics "B" 12 "3";
               Scenario.metrics "C" 9 "9"] <> []) by discriminate.
  split; [exact H|].
  exact (max_count_is_the_largest_count _ H).
Defined.

(** X19.  When none of the declared nodes has metrics, the report is made
    of [[down]] lines only, whatever the metrics of other nodes are: no
    percentage is computed, so that neither a block count of zero nor a
    cemented count that is not a number can fail it. *)
Theorem report_of_unknown_nodes_is_all_down :
  forall nodes metrics,
    metrics <> [] ->
    (forall name, In name nodes -> get_node_data metrics name = None) ->
    _generate_network_status_report nodes metrics
    = Ret (PyStr.newline
           ++ PyStr.join PyStr.newline (map (fun name => name ++ " [down]") nodes)).
Proof.
  intros nodes metrics Hne Hnone.
  unfold _generate_network_status_report.
  destruct metrics as [|b rest] eqn:Em; [congruence|]. rewrite <- Em in *.
  assert (E : ResMonad.mapM (report_line metrics (max_count_of metrics)) nodes
              = Ret (map (fun name => name ++ " [down]") nodes)).
  { clear Em. induction nodes as [|n l IH]; [reflexivity|].
    cbn [ResMonad.mapM map]. unfold report_line at 1.
    rewrite (Hnone n (or_introl eq_refl)). cbn [ResMonad.bind].
    rewrite IH; [reflexivity|]. intros name Hin. apply Hnone. right. exact Hin. }
  rewrite E. reflexivity.
Qed.

Lemma report_of_unknown_nodes_is_all_down_witness :
  [Scenario.metrics "Z" 0 "none"] <> []
  /\ _generate_network_status_report ["A"; "B"] [Scenario.metrics "Z" 0 "none"]
     = Ret (PyStr.newline ++ "A [down]" ++ PyStr.newline ++ "B [down]").
Proof.
  assert (H : [Scenario.metrics "Z" 0 "none"] <> []) by discriminate.
  split; [exact H|].
  apply (report_of_unknown_nodes_is_all_down ["A"; "B"] [Scenario.metrics "Z" 0 "none"] H).
  intros name [<- | [<- | []]]; reflexivity.
Defined.

Lemma online_containers_shape env fuel names t online t' :
  _online_containers env fuel names t = (Ret online, t') ->
  incl online names /\ (List.length online <= List.length names)%nat.
Proof.
  revert t online t'. induction names as [|n l IH]; intros t online t' H.
  - cbn in H. injection H as <- _. split; [apply incl_refl | apply Nat.le_refl].
  - cbn [_online_containers] in H.
    apply bind_Ret_inv in H. destruct H as [r [t1 [_ H]]].
    apply bind_Ret_inv in H. destruct H as [k [t2 [_ H]]].
    apply bind_Ret_inv in H. destruct H as [others [t3 [Ho H]]].
    apply IH in Ho. destruct Ho as [Hincl Hlen].
    unfold Eff.ret in H. injection H as <- _.
    destruct (k =? 1); cbn [List.length]; split; try lia.
    + intros x [<- | Hx]; [left; reflexivity | right; apply Hincl; exact Hx].
    + intros x Hx. right. apply Hincl. exact Hx.
Qed.

(** X20.  The containers that [_online_containers] reports are among the
    names it was given, and [_count_online_containers] counts at least
    none and at most as many as there are names. *)
Theorem online_containers_are_among_the_names :
  forall env fuel names t,
    (forall online t',
        _online_containers env fuel names t = (Ret online, t') -> incl online names)
    /\ (forall k t',
          _count_online_containers env fuel names t = (Ret k, t') ->
          0 <= k <= Z.of_nat (List.length names)).
Proof.
  intros env fuel names t. split.
  - intros online t' H. apply (online_containers_shape _ _ _ _ _ _ H).
  - intros k t' H. unfold _count_online_containers in H.
    apply bind_Ret_inv in H. destruct H as [online [t1 [Ho H]]].
    unfold Eff.ret in H. injection H as <- _.
    apply online_containers_shape in Ho. lia.
Qed.

Lemma online_containers_are_among_the_names_witness :
  _count_online_containers Scenario.healthy 2 ["nl_genesis"; "nl_pr1"] []
  = (Ret 2, [EvRun (docker_ps_line "nl_genesis") true None;
             EvRun (docker_ps_line "nl_pr1") true None])
  /\ 0 <= 2 <= Z.of_nat (List.length ["nl_genesis"; "nl_pr1"]).
Proof.
  assert (H : _count_online_containers Scenario.healthy 2 ["nl_genesis"; "nl_pr1"] []
              = (Ret 2, [EvRun (docker_ps_line "nl_genesis") true None;
                         EvRun (docker_ps_line "nl_pr1") true None]))
    by (vm_compute; reflexivity).
  split; [exact H|].
  exact (proj2 (online_containers_are_among_the_names Scenario.healthy 2
                  ["nl_genesis"; "nl_pr1"] []) _ _ H).
Defined.

Lemma append_empty (s : string) : s ++ "" = s.
Proof. induction s as [|c s IH]; simpl; [reflexivity | rewrite IH; reflexivity]. Qed.

(** X21.  When [docker ps] shows none of the configured containers, the
    status is the summary alone: one [docker ps] line is run for each
    configured node and no node is asked over RPC. *)
Theorem status_without_online_containers :
  forall env fuel t,
    (forall t0 name,
        In name (conf_nodes_name env) ->
        exists result k,
          subprocess_run env t0 (docker_ps_line name) true None = inl result
          /\ PyStr.int_of_str (PyStr.strip (cp_stdout result)) = Some k
          /\ k <> 1) ->
    network_status env (S fuel) None t
    = (Ret (online_containers_status [] (Z.of_nat (List.length (conf_nodes_name env)))),
       (t ++ map (fun name => EvRun (docker_ps_line name) true None)
               (conf_nodes_name env))%list).
Proof.
  intros env fuel t Hdown.
  assert (E : forall names t0,
             incl names (conf_nodes_name env) ->
             _online_containers env (S fuel) names t0
             = (Ret [], (t0 ++ map (fun name => EvRun (docker_ps_line name) true None)
                                 names)%list)).
  { induction names as [|n l IH]; intros t0 Hincl.
    - cbn. unfold Eff.ret. rewrite app_nil_r. reflexivity.
    - destruct (Hdown t0 n (Hincl n (or_introl eq_refl))) as [r [k [Hr [Hk Hne]]]].
      cbn [_online_containers]. unfold Eff.bind at 1.
      fold (docker_ps_line n).
      rewrite (executor_on_success _ _ _ _ _ _ _ _ Hr).
      unfold Eff.bind at 1. unfold Eff.lift at 1. unfold py_int. rewrite Hk.
      unfold Eff.bind at 1.
      rewrite IH; [|intros x Hx; apply Hincl; right; exact Hx].
      unfold Eff.ret. destruct (Z.eqb_spec k 1) as [-> | _]; [congruence|].
      cbn [map]. rewrite <- app_assoc. reflexivity. }
  unfold network_status. unfold Eff.bind at 1.
  rewrite (E _ _ (incl_refl _)).
  cbn. unfold Eff.ret. rewrite append_empty. reflexivity.
Qed.

Lemma status_without_online_containers_witness :
  network_status
    (Scenario.with_subprocess Scenario.healthy
       (fun _ cmd _ _ => inl {| cp_args := cmd; cp_stdout := "0"; cp_stderr := "" |}))
    1 None []
  = (Ret "0/2 containers online",
     [EvRun (docker_ps_line "nl_genesis") true None;
      EvRun (docker_ps_line "nl_pr1") true None]).
Proof.
  apply (status_without_online_containers
           (Scenario.with_subprocess Scenario.healthy
              (fun _ cmd _ _ => inl {| cp_args := cmd; cp_stdout := "0"; cp_stderr := "" |}))
           0 []).
  intros t0 name _. exists {| cp_args := docker_ps_line name; cp_stdout := "0"; cp_stderr := "" |}, 0.
  split; [reflexivity|]. split; [reflexivity | discriminate].
Defined.

(** ** Maintenance and reset *)

Lemma compose_on_success env fuel command nodes t :
  every_process_succeeds env ->
  exists result,
    _run_docker_compose_command env (S fuel) command nodes t
    = (Ret result,
       (t ++ [EvRun (compose_line env command
                       match nodes with Some l => l | None => [] end) false None])%list).
Proof.
  intros H. unfold _run_docker_compose_command, compose_line.
  destruct (H t (CmdList (["docker-compose"; "-f"; compose_yml_path env; "-p";
                           project_name env] ++ command
                          ++ match nodes with Some l => l | None => [] end)%list)
              false None) as [r Hr].
  exists r. apply executor_on_success. exact Hr.
Qed.

(** X22.  Where every process succeeds, [update] pulls the images, takes
    the network down and builds it, in that order, each with one compose
    command on the whole project. *)
Theorem update_pulls_removes_and_builds :
  forall env fuel t,
    every_process_succeeds env ->
    update env (S fuel) t
    = (Ret PyNone,
       (t ++ [EvRun (compose_line env ["pull"] []) false None;
              EvRun (compose_line env ["down"] []) false None;
              EvRun (compose_line env ["build"] []) false None])%list).
Proof.
  intros env fuel t H. unfold update, remove_containers, build_containers, none_after.
  destruct (compose_on_success env fuel ["pull"] None t H) as [r1 E1].
  unfold Eff.bind at 1. rewrite E1.
  destruct (compose_on_success env fuel ["down"] None
              (t ++ [EvRun (compose_line env ["pull"] []) false None])%list H) as [r2 E2].
  unfold Eff.bind at 1. unfold Eff.bind at 1. rewrite E2. unfold Eff.ret at 1.
  destruct (compose_on_success env fuel ["build"] None
              ((t ++ [EvRun (compose_line env ["pull"] []) false None])
                 ++ [EvRun (compose_line env ["down"] []) false None])%list H) as [r3 E3].
  unfold Eff.bind at 1. unfold Eff.bind at 1. rewrite E3. unfold Eff.ret.
  rewrite <- !app_assoc. reflexivity.
Qed.

Lemma update_pulls_removes_and_builds_witness :
  every_process_succeeds Scenario.healthy
  /\ update Scenario.healthy 1 []
     = (Ret PyNone,
        [EvRun (compose_line Scenario.healthy ["pull"] []) false None;
         EvRun (compose_line Scenario.healthy ["down"] []) false None;
         EvRun (compose_line Scenario.healthy ["build"] []) false None]).
Proof.
  assert (H : every_process_succeeds Scenario.healthy).
  { intros t cmd shell cwd. eexists. reflexivity. }
  split; [exact H|].
  exact (update_pulls_removes_and_builds Scenario.healthy 0 [] H).
Defined.

Lemma node_path_is_not_empty (base node : string) :
  negb (String.eqb (base ++ "/" ++ node) "") = true.
Proof. destruct base; reflexivity. Qed.

(** X23.  Where every process succeeds, [reset] on a list of nodes stops
    those nodes and then runs, once for each of them, one and the same
    removal of ledger files, through the shell and with no working
    directory: the path of the node takes the place of the shell setting
    and does not direct the removal to the node's directory. *)
Theorem reset_runs_the_same_removal_for_each_node :
  forall env fuel node rest t,
    every_process_succeeds env ->
    reset_nodes_data env (S fuel) (Some (node :: rest)) t
    = (Ret PyNone,
       (t ++ EvRun (compose_line env ["stop"] (node :: rest)) false None
          :: map (fun _ => EvRun (CmdStr ldb_removal) true None) (node :: rest))%list).
Proof.
  intros env fuel node rest t H.
  unfold reset_nodes_data, stop_containers, none_after.
  destruct (compose_on_success env fuel ["stop"] (Some (node :: rest)) t H) as [r E].
  unfold Eff.bind at 1. unfold Eff.bind at 1. rewrite E. unfold Eff.ret at 1.
  assert (G : forall l t0,
             exists results,
               Eff.for_each
                 (fun n => _subprocess_capture_raise env (S fuel) (CmdStr ldb_removal)
                             (negb (String.eqb (nano_nodes_path env ++ "/" ++ n) ""))
                             None 0) l t0
               = (Ret results,
                  (t0 ++ map (fun _ => EvRun (CmdStr ldb_removal) true None) l)%list)).
  { induction l as [|n l IH]; intros t0.
    - exists []. cbn. unfold Eff.ret. rewrite app_nil_r. reflexivity.
    - destruct (H t0 (CmdStr ldb_removal) true None) as [r0 Hr0].
      destruct (IH (t0 ++ [EvRun (CmdStr ldb_removal) true None])%list) as [rs Hrs].
      exists (r0 :: rs). cbn [Eff.for_each map]. rewrite node_path_is_not_empty.
      unfold Eff.bind at 1. rewrite (executor_on_success _ _ _ _ _ _ _ _ Hr0).
      unfold Eff.bind at 1. rewrite Hrs. unfold Eff.ret.
      rewrite <- app_assoc. reflexivity. }
  destruct (G (node :: rest)
              (t ++ [EvRun (compose_line env ["stop"] (node :: rest)) false None])%list)
    as [results Hres].
  unfold Eff.bind at 1. rewrite Hres. unfold Eff.ret.
  rewrite <- app_assoc. reflexivity.
Qed.

Lemma reset_runs_the_same_removal_for_each_node_witness :
  every_process_succeeds Scenario.healthy
  /\ reset_nodes_data Scenario.healthy 1 (Some ["nl_genesis"; "nl_pr1"]) []
     = (Ret PyNone,
        [EvRun (compose_line Scenario.healthy ["stop"] ["nl_genesis"; "nl_pr1"]) false None;
         EvRun (CmdStr ldb_removal) true None;
         EvRun (CmdStr ldb_removal) true None]).
Proof.
  assert (H : every_process_succeeds Scenario.healthy).
  { intros t cmd shell cwd. eexists. reflexivity. }
  split; [exact H|].
  exact (reset_runs_the_same_removal_for_each_node Scenario.healthy 0 "nl_genesis"
           ["nl_pr1"] [] H).
Defined.

(** X24.  Unlike the commands of the orchestration, [rpc] takes an empty
    list of nodes at its word: where the decorator keeps signatures, [rpc]
    with a payload and an empty list asks no node at all. *)
Theorem rpc_on_empty_selection_asks_no_node :
  forall env fuel c rest t,
    decorator_keeps_signature env = true ->
    execute_command env fuel "rpc" (Some []) (Some (String c rest)) t = (Ret PyNone, t)
    /\ run_rpc env (Some (String c rest)) (Some []) t = (Ret (PyStr (json_dumps env [])), t).
Proof.
  intros env fuel c rest t H. split; [|reflexivity].
  unfold execute_command.
  cbn [command_mapping mapping_lookup String.eqb Ascii.eqb Bool.eqb].
  unfold _filter_args, run_rpc_action, log_on_success, _rpc_validator_callable.
  cbn [parameters]. rewrite H. reflexivity.
Qed.

Lemma rpc_on_empty_selection_asks_no_node_witness :
  decorator_keeps_signature Scenario.healthy = true
  /\ execute_command Scenario.healthy 5 "rpc" (Some []) (Some "{}") [] = (Ret PyNone, [])
  /\ run_rpc Scenario.healthy (Some "{}") (Some []) [] = (Ret (PyStr "[]"), []).
Proof.
  split; [reflexivity|].
  exact (rpc_on_empty_selection_asks_no_node Scenario.healthy 5 "{"%char "}" [] eq_refl).
Defined.

(** ** What the executor leaves in the trace *)

Lemma runs_in_none_any cwd ev : runs_in None ev -> runs_in cwd ev.
Proof.
  intros [c [s [d [-> [-> | ->]]]]]; exists c, s, None; split; auto.
Qed.

Lemma executor_trace_shape env fuel :
  forall cmd shell cwd increment t,
    exists ext,
      snd (_subprocess_capture_raise env fuel cmd shell cwd increment t) = (t ++ ext)%list
      /\ Forall (runs_in cwd) ext
      /\ (fuel <> O -> exists rest, ext = EvRun cmd shell cwd :: rest).
Proof.
  induction fuel as [|f IH]; intros cmd shell cwd increment t.
  - exists []. cbn. rewrite app_nil_r. repeat split; [constructor | congruence].
  - assert (Hfirst : runs_in cwd (EvRun cmd shell cwd)).
    { exists cmd, shell, cwd. split; auto. }
    assert (Hstop : forall (x : res CompletedProcess),
               exists ext,
                 snd (x, (t ++ [EvRun cmd shell cwd])%list) = (t ++ ext)%list
                 /\ Forall (runs_in cwd) ext
                 /\ (S f <> O -> exists rest, ext = EvRun cmd shell cwd :: rest)).
    { intros x. exists [EvRun cmd shell cwd]. cbn [snd].
      repeat split; [constructor; [exact Hfirst | constructor] | intros _; eexists; reflexivity]. }
    assert (Hagain : forall c s inc ext1,
               Forall (runs_in cwd) ext1 ->
               exists ext,
                 snd (_subprocess_capture_raise env f c s cwd inc
                        ((t ++ [EvRun cmd shell cwd]) ++ ext1)%list) = (t ++ ext)%list
                 /\ Forall (runs_in cwd) ext
                 /\ (S f <> O -> exists rest, ext = EvRun cmd shell cwd :: rest)).
    { intros c s inc ext1 H1.
      destruct (IH c s cwd inc ((t ++ [EvRun cmd shell cwd]) ++ ext1)%list)
        as [ext2 [E2 [H2 _]]].
      exists ([EvRun cmd shell cwd] ++ ext1 ++ ext2)%list.
      split; [rewrite E2, <- !app_assoc; reflexivity|].
      split; [|intros _; eexists; reflexivity].
      apply Forall_app. split; [constructor; [exact Hfirst | constructor]|].
      apply Forall_app. split; assumption. }
    assert (Hremedy : forall c (k : Eff.M CompletedProcess),
               (forall ext1, Forall (runs_in cwd) ext1 ->
                  exists ext,
                    snd (k ((t ++ [EvRun cmd shell cwd]) ++ ext1)%list) = (t ++ ext)%list
                    /\ Forall (runs_in cwd) ext
                    /\ (S f <> O -> exists rest, ext = EvRun cmd shell cwd :: rest)) ->
               exists ext,
                 snd ((healed <- (_subprocess_capture_raise env f c true None 0 ;;; Eff.ret true) ;;
                       if healed : bool then k else k)
                        (t ++ [EvRun cmd shell cwd])%list) = (t ++ ext)%list
                 /\ Forall (runs_in cwd) ext
                 /\ (S f <> O -> exists rest, ext = EvRun cmd shell cwd :: rest)).
    { intros c k Hk.
      destruct (IH c true None 0 (t ++ [EvRun cmd shell cwd])%list) as [ext1 [E1 [H1 _]]].
      assert (H1' : Forall (runs_in cwd) ext1).
      { eapply Forall_impl; [|exact H1]. intros ev. apply runs_in_none_any. }
      unfold Eff.bind.
      destruct (_subprocess_capture_raise env f c true None 0 (t ++ [EvRun cmd shell cwd])%list)
        as [[r| |] t2] eqn:Ec; cbn [snd] in E1; subst t2.
      - unfold Eff.ret. apply Hk. exact H1'.
      - exists ([EvRun cmd shell cwd] ++ ext1)%list. cbn [snd].
        split; [rewrite <- app_assoc; reflexivity|].
        split; [|intros _; eexists; reflexivity].
        apply Forall_app. split; [constructor; [exact Hfirst | constructor] | exact H1'].
      - exists ([EvRun cmd shell cwd] ++ ext1)%list. cbn [snd].
        split; [rewrite <- app_assoc; reflexivity|].
        split; [|intros _; eexists; reflexivity].
        apply Forall_app. split; [constructor; [exact Hfirst | constructor] | exact H1']. }
    destruct (subprocess_run env t cmd shell cwd) as [result | e] eqn:Hrun.
    + rewrite (executor_on_success _ _ _ _ _ _ _ _ Hrun). apply Hstop.
    + rewrite (executor_on_failure _ _ _ _ _ _ _ _ Hrun).
      unfold auto_heal. destruct (10 <=? increment); [apply Hstop|].
      unfold healable_errors. cbn [heal_loop].
      destruct (PyStr.contains HealPattern.address_in_use_msg (e_stderr e)); cbn [negb].
      * unfold _heal_address_in_use.
        destruct (HealPattern.search_word HealPattern.address_in_use_msg (e_stderr e))
          as [name|]; [|apply Hstop].
        assert (G := Hremedy
                       (CmdStr ("docker stop -t 0 " ++ name
                                ++ " && sleep 5 && docker start " ++ name))
                       (_subprocess_capture_raise env f (e_cmd e) shell cwd (increment + 1))
                       (Hagain (e_cmd e) shell (increment + 1))).
        destruct G as [ext [E [HF Hr]]]. exists ext. split; [|split; assumption].
        rewrite <- E. unfold Eff.bind.
        destruct (_subprocess_capture_raise env f _ true None 0 _) as [[r| |] t2];
          reflexivity.
      * destruct (PyStr.contains HealPattern.docker_in_use_msg (e_stderr e)); cbn [negb];
          [|apply Hstop].
        unfold _heal_docker_in_use.
        destruct (HealPattern.search_quoted HealPattern.docker_in_use_msg (e_stderr e))
          as [name|]; [|apply Hstop].
        assert (G := Hremedy
                       (CmdStr ("docker stop -t 0 " ++ name
                                ++ " && docker rm " ++ name ++ " && sleep 5"))
                       (_subprocess_capture_raise env f (e_cmd e) shell cwd (increment + 1))
                       (Hagain (e_cmd e) shell (increment + 1))).
        destruct G as [ext [E [HF Hr]]]. exists ext. split; [|split; assumption].
        rewrite <- E. unfold Eff.bind.
        destruct (_subprocess_capture_raise env f _ true None 0 _) as [[r| |] t2];
          reflexivity.
Qed.

(** X25.  Whatever happens, the executor only adds process runs to the
    trace: it asks no node, reads no clock and does not sleep by itself.
    The first run is the command it was given; every run is made in the
    directory it was given or, for the remediation commands, in none. *)
Theorem executor_only_runs_processes :
  forall env fuel cmd shell cwd increment t,
    exists ext,
      snd (_subprocess_capture_raise env (S fuel) cmd shell cwd increment t) = (t ++ ext)%list
      /\ Forall (runs_in cwd) ext
      /\ exists rest, ext = EvRun cmd shell cwd :: rest.
Proof.
  intros env fuel cmd shell cwd increment t.
  destruct (executor_trace_shape env (S fuel) cmd shell cwd increment t)
    as [ext [E [HF Hfirst]]].
  exists ext. split; [exact E|]. split; [exact HF|]. apply Hfirst. discriminate.
Qed.

(** ** Which nodes the status asks *)

Lemma rpc_calls_app (a b : Trace) :
  rpc_calls (a ++ b)%list = (rpc_calls a ++ rpc_calls b)%list.
Proof.
  induction a as [|ev a IH]; simpl; [reflexivity|].
  destruct ev; simpl; rewrite IH; reflexivity.
Qed.

Lemma runs_make_no_rpc_call cwd (ext : Trace) :
  Forall (runs_in cwd) ext -> rpc_calls ext = [].
Proof.
  induction 1 as [|ev ext [c [s [d [-> _]]]] _ IH]; simpl; [reflexivity | exact IH].
Qed.

Lemma online_containers_trace env fuel names :
  forall t,
    exists ext,
      snd (_online_containers env fuel names t) = (t ++ ext)%list /\ rpc_calls ext = [].
Proof.
  induction names as [|n l IH]; intros t.
  - exists []. cbn. rewrite app_nil_r. split; reflexivity.
  - cbn [_online_containers].
    destruct (executor_trace_shape env fuel (CmdStr ("docker ps |grep " ++ n ++ "$ | wc -l"))
                true None 0 t) as [ext1 [E1 [H1 _]]].
    apply runs_make_no_rpc_call in H1.
    unfold Eff.bind at 1.
    destruct (_subprocess_capture_raise env fuel _ true None 0 t) as [[r| |] t1];
      cbn [snd] in E1; subst t1; try (exists ext1; split; [reflexivity | exact H1]).
    unfold Eff.bind at 1. unfold Eff.lift at 1.
    destruct (py_int (PyStr.strip (cp_stdout r))) as [k| |];
      try (exists ext1; split; [reflexivity | exact H1]).
    destruct (IH (t ++ ext1)%list) as [ext2 [E2 H2]].
    exists (ext1 ++ ext2)%list.
    split; [|rewrite rpc_calls_app, H1, H2; reflexivity].
    rewrite app_assoc, <- E2. unfold Eff.bind, Eff.ret.
    destruct (_online_containers env fuel l (t ++ ext1)%list) as [[o| |] t2]; reflexivity.
Qed.

Lemma node_metrics_trace env node t :
  exists ext,
    snd (node_metrics env node t) = (t ++ ext)%list /\ incl (rpc_calls ext) [node].
Proof.
  unfold node_metrics, Eff.bind, ask, Eff.lift, Eff.ret.
  destruct (rpc_block_count env t node) as [bc| |].
  - destruct (rpc_version env (t ++ [EvRpc node BlockCount])%list node) as [v| |];
      [destruct (py_int (fst bc)) as [c| |]| |];
      exists [EvRpc node BlockCount; EvRpc node Version]; cbn [snd];
      (split; [rewrite <- app_assoc; reflexivity
              | intros x [<- | [<- | []]]; left; reflexivity]).
  - exists [EvRpc node BlockCount]. cbn [snd].
    split; [reflexivity | intros x [<- | []]; left; reflexivity].
  - exists [EvRpc node BlockCount]. cbn [snd].
    split; [reflexivity | intros x [<- | []]; left; reflexivity].
Qed.

Lemma nodes_block_counts_trace env nodes :
  forall t,
    exists ext,
      snd (Eff.for_each (node_metrics env) nodes t) = (t ++ ext)%list
      /\ incl (rpc_calls ext) nodes.
Proof.
  induction nodes as [|n l IH]; intros t.
  - exists []. cbn. rewrite app_nil_r. split; [reflexivity | apply incl_nil_l].
  - cbn [Eff.for_each]. unfold Eff.bind at 1.
    destruct (node_metrics_trace env n t) as [ext1 [E1 H1]].
    assert (H1' : incl (rpc_calls ext1) (n :: l)).
    { intros x Hx. apply H1 in Hx. destruct Hx as [<- | []]. left. reflexivity. }
    destruct (node_metrics env n t) as [[m| |] t1]; cbn [snd] in E1; subst t1;
      try (exists ext1; split; [reflexivity | exact H1']).
    destruct (IH (t ++ ext1)%list) as [ext2 [E2 H2]].
    exists (ext1 ++ ext2)%list. split.
    + rewrite app_assoc, <- E2. unfold Eff.bind, Eff.ret.
      destruct (Eff.for_each (node_metrics env) l (t ++ ext1)%list) as [[ms| |] t2];
        reflexivity.
    + rewrite rpc_calls_app. apply incl_app; [exact H1'|].
      intros x Hx. right. apply H2. exact Hx.
Qed.

Lemma get_nodes_block_counts_trace env nodes t :
  exists ext,
    snd (_get_nodes_block_counts env (Some nodes) t) = (t ++ ext)%list
    /\ incl (rpc_calls ext) nodes.
Proof.
  unfold _get_nodes_block_counts, Eff.bind, Eff.lift.
  destruct (ResMonad.mapM (get_node_rpc env) nodes) as [urls| |].
  - apply nodes_block_counts_trace.
  - exists []. cbn [snd]. rewrite app_nil_r. split; [reflexivity | apply incl_nil_l].
  - exists []. cbn [snd]. rewrite app_nil_r. split; [reflexivity | apply incl_nil_l].
Qed.

(** X26.  [network_status] only adds to the trace, and the nodes it asks
    over RPC are configured nodes that [docker ps] has shown online just
    before: whatever the caller selects and whatever fails on the way, no
    other node is asked. *)
Theorem status_asks_online_configured_nodes_only :
  forall env fuel nodes_name t,
    exists ext,
      snd (network_status env fuel nodes_name t) = (t ++ ext)%list
      /\ incl (rpc_calls ext) (conf_nodes_name env)
      /\ forall online t1,
           _online_containers env fuel (conf_nodes_name env) t = (Ret online, t1) ->
           incl (rpc_calls ext) online.
Proof.
  intros env fuel nodes_name t.
  assert (Hbody : exists ext,
             snd ((online_containers <- _online_containers env fuel (conf_nodes_name env) ;;
                   nodes_block_count <- _get_nodes_block_counts env (Some online_containers) ;;
                   report <- Eff.lift (_generate_network_status_report
                                         (conf_nodes_name env) nodes_block_count) ;;
                   Eff.ret (online_containers_status online_containers
                              (Z.of_nat (List.length (conf_nodes_name env))) ++ report)) t)
             = (t ++ ext)%list
             /\ incl (rpc_calls ext) (conf_nodes_name env)
             /\ forall online t1,
                  _online_containers env fuel (conf_nodes_name env) t = (Ret online, t1) ->
                  incl (rpc_calls ext) online).
  { destruct (online_containers_trace env fuel (conf_nodes_name env) t) as [ext1 [E1 H1]].
    unfold Eff.bind at 1.
    destruct (_online_containers env fuel (conf_nodes_name env) t) as [[online| |] t1] eqn:Eo;
      cbn [snd] in E1; subst t1;
      try (exists ext1; rewrite H1; split; [reflexivity|];
           split; [apply incl_nil_l | intros; apply incl_nil_l]).
    destruct (online_containers_shape _ _ _ _ _ _ Eo) as [Hincl _].
    destruct (get_nodes_block_counts_trace env online (t ++ ext1)%list) as [ext2 [E2 H2]].
    exists (ext1 ++ ext2)%list.
    assert (Hcalls : incl (rpc_calls (ext1 ++ ext2)%list) online).
    { rewrite rpc_calls_app, H1. exact H2. }
    split; [|split].
    - rewrite app_assoc, <- E2. unfold Eff.bind at 1.
      destruct (_get_nodes_block_counts env (Some online) (t ++ ext1)%list) as [[ms| |] t2];
        try reflexivity.
      unfold Eff.bind, Eff.lift, Eff.ret.
      destruct (_generate_network_status_report (conf_nodes_name env) ms); reflexivity.
    - intros x Hx. apply Hincl. apply Hcalls. exact Hx.
    - intros online' t1 H. injection H as <- _. exact Hcalls. }
  destruct nodes_name as [[|n l]|].
  - exists []. cbn. rewrite app_nil_r.
    split; [reflexivity|]. split; [apply incl_nil_l|]. intros; apply incl_nil_l.
  - destruct Hbody as [ext [E [H1 H2]]]. exists ext.
    split; [exact E|]. split; [exact H1 | exact H2].
  - destruct Hbody as [ext [E [H1 H2]]]. exists ext.
    split; [exact E|]. split; [exact H1 | exact H2].
Qed.

Lemma status_asks_online_configured_nodes_only_witness :
  exists ext,
    snd (network_status Scenario.healthy 5 (Some ["nl_pr1"]) []) = ([] ++ ext)%list
    /\ incl (rpc_calls ext) ["nl_genesis"; "nl_pr1"].
Proof.
  destruct (status_asks_online_configured_nodes_only Scenario.healthy 5 (Some ["nl_pr1"]) [])
    as [ext [E [H _]]].
  exists ext. split; [exact E | exact H].
Defined.

(** ** Texts that are not numbers *)

(** X27.  A cemented count that [int()] does not accept makes the line fail
    with [ValueError], whatever the maximum block count: the text is read
    before the division is made, so that even with a maximum of zero the
    error is this one and not the division by zero.  The message shows the
    first 200 characters of the text as [repr] writes it. *)
Theorem cemented_text_must_be_a_number :
  forall max_count bc,
    PyStr.int_of_str (cemented bc) = None ->
    format_report_line max_count bc
    = Raise (ValueError ("invalid literal for int() with base 10: "
                         ++ PyStr.cut 200 (PyStr.repr (cemented bc)))).
Proof.
  intros max_count bc H. unfold format_report_line, synced_percentage, py_int.
  rewrite H. reflexivity.
Qed.

Lemma cemented_text_must_be_a_number_witness :
  PyStr.int_of_str (cemented (Scenario.metrics "A" 0 "n/a")) = None
  /\ format_report_line 0 (Scenario.metrics "A" 0 "n/a")
     = Raise (ValueError "invalid literal for int() with base 10: 'n/a'").
Proof.
  assert (H : PyStr.int_of_str (cemented (Scenario.metrics "A" 0 "n/a")) = None)
    by reflexivity.
  split; [exact H|].
  exact (cemented_text_must_be_a_number 0 (Scenario.metrics "A" 0 "n/a") H).
Defined.

(** X28.  When the output of the [docker ps] line of a container is not a
    number, [_online_containers] raises [ValueError] there and then: the
    containers after it are not looked at. *)
Theorem unreadable_docker_ps_output_stops_the_count :
  forall env fuel name rest t result,
    subprocess_run env t (docker_ps_line name) true None = inl result ->
    PyStr.int_of_str (PyStr.strip (cp_stdout result)) = None ->
    _online_containers env (S fuel) (name :: rest) t
    = (Raise (ValueError ("invalid literal for int() with base 10: "
                          ++ PyStr.cut 200 (PyStr.repr (PyStr.strip (cp_stdout result))))),
       (t ++ [EvRun (docker_ps_line name) true None])%list).
Proof.
  intros env fuel name rest t result Hrun Hint.
  cbn [_online_containers]. fold (docker_ps_line name).
  unfold Eff.bind at 1. rewrite (executor_on_success _ _ _ _ _ _ _ _ Hrun).
  unfold Eff.bind at 1. unfold Eff.lift at 1. unfold py_int. rewrite Hint. reflexivity.
Qed.

Lemma unreadable_docker_ps_output_stops_the_count_witness :
  _online_containers
    (Scenario.with_subprocess Scenario.healthy
       (fun _ cmd _ _ => inl {| cp_args := cmd; cp_stdout := ""; cp_stderr := "" |}))
    1 ["nl_genesis"; "nl_pr1"] []
  = (Raise (ValueError "invalid literal for int() with base 10: ''"),
     [EvRun (docker_ps_line "nl_genesis") true None]).
Proof.
  apply (unreadable_docker_ps_output_stops_the_count
           (Scenario.with_subprocess Scenario.healthy
              (fun _ cmd _ _ => inl {| cp_args := cmd; cp_stdout := ""; cp_stderr := "" |}))
           0 "nl_genesis" ["nl_pr1"] []
           {| cp_args := docker_ps_line "nl_genesis"; cp_stdout := ""; cp_stderr := "" |});
    reflexivity.
Defined.
